(** * knowledge_gae: variational graph auto-encoder components

    A shallow embedding of [model.py] and [gae/optimizer.py].

    A tensor is its shape together with its entries, read by index; only
    entries inside the shape matter.  Python exceptions are values of [exn];
    a call either returns or raises.  Random draws (dropout masks) come from
    an explicit generator state.

    The code is embedded twice.  First with real numbers for tensor
    entries: this says which expression the code evaluates, and serves for
    shapes, exceptions and identities of exact arithmetic.  Then, in module
    [f32], with the binary32 numbers the tensors of the program hold: this
    serves where rounding, overflow or nan decide. *)

From Stdlib Require Import Reals List Arith ZArith Lia Lra Bool String Ascii Permutation.
From Stdlib Require Import Floats.SpecFloat.
Import ListNotations.

Open Scope R_scope.

(** ** Python exceptions and results *)

Inductive exn : Type :=
| NotImplementedError (msg : string)
| TypeError
| AttributeError
| ValueError
| IndexError
| RuntimeError
| ZeroDivisionError
| RecursionError
| AssertionError.

Inductive result (A : Type) : Type :=
| Ok (a : A)
| Raise (e : exn).

Arguments Ok {A} a.
Arguments Raise {A} e.

Definition bind {A B : Type} (m : result A) (k : A -> result B) : result B :=
  match m with
  | Ok a => k a
  | Raise e => Raise e
  end.

Notation "x <- m ;; k" := (bind m (fun x => k))
  (at level 61, m at next level, right associativity).

Notation "' pat <- m ;; k" := (bind m (fun x => match x with pat => k end))
  (at level 61, pat pattern, m at next level, right associativity).

(** A tensor of no elements has no mean: the library answers [nan], the
    one value outside the reals that the real-valued embedding keeps. *)
Inductive scalar : Type :=
| Fin (r : R)
| NaN.

Definition scalar_scale (c : R) (s : scalar) : scalar :=
  match s with
  | Fin r => Fin (c * r)
  | NaN => NaN
  end.

Definition scalar_add (a b : scalar) : scalar :=
  match a, b with
  | Fin x, Fin y => Fin (x + y)
  | _, _ => NaN
  end.

(** ** Finite sums *)

Definition Rsum (l : list R) : R := fold_right Rplus 0 l.

Definition sum_upto (n : nat) (f : nat -> R) : R := Rsum (map f (seq 0 n)).

(** ** Tensors *)

Record Tensor1 : Type := mkT1 { len1 : nat; at1 : nat -> R }.

Record Tensor2 : Type := mkT2 { rows2 : nat; cols2 : nat; at2 : nat -> nat -> R }.

Record Tensor3 : Type :=
  mkT3 { dim0 : nat; dim1 : nat; dim2 : nat; at3 : nat -> nat -> nat -> R }.

(** Index tensors ([torch.long]). *)
Record LongTensor1 : Type := mkL1 { llen : nat; lat1 : nat -> Z }.

Record LongTensor2 : Type := mkL2 { lrows : nat; lcols : nat; lat2 : nat -> nat -> Z }.

Definition numel2 (t : Tensor2) : nat := (rows2 t * cols2 t)%nat.

Definition numel3 (t : Tensor3) : nat := (dim0 t * dim1 t * dim2 t)%nat.

Definition same_shape3 (a b : Tensor3) : bool :=
  ((dim0 a =? dim0 b) && (dim1 a =? dim1 b) && (dim2 a =? dim2 b))%nat.

(** Tensors written out as nested lists, for concrete inputs. *)
Definition tensor2_of (c : nat) (l : list (list R)) : Tensor2 :=
  mkT2 (List.length l) c (fun i j => nth j (nth i l []) 0).

Definition tensor3_of (d1 d2 : nat) (l : list (list (list R))) : Tensor3 :=
  mkT3 (List.length l) d1 d2 (fun i j k => nth k (nth j (nth i l []) []) 0).

Definition long2_of (c : nat) (l : list (list Z)) : LongTensor2 :=
  mkL2 (List.length l) c (fun i j => nth j (nth i l []) 0%Z).

Definition long1_of (l : list Z) : LongTensor1 :=
  mkL1 (List.length l) (fun i => nth i l 0%Z).

Module torch.

Definition zeros2 (r c : nat) : Tensor2 := mkT2 r c (fun _ _ => 0).

Definition zeros3 (a b c : nat) : Tensor3 := mkT3 a b c (fun _ _ _ => 0).

Definition sigmoid (x : R) : R := 1 / (1 + exp (- x)).

Definition map2d (f : R -> R) (t : Tensor2) : Tensor2 :=
  mkT2 (rows2 t) (cols2 t) (fun i j => f (at2 t i j)).

Definition map3d (f : R -> R) (t : Tensor3) : Tensor3 :=
  mkT3 (dim0 t) (dim1 t) (dim2 t) (fun i j k => f (at3 t i j k)).

(** Broadcasting of one dimension: equal sizes, or one of them is 1. *)
Definition bdim (a b : nat) : option nat :=
  if (a =? b)%nat then Some a
  else if (a =? 1)%nat then Some b
  else if (b =? 1)%nat then Some a
  else None.

Definition bidx (size i : nat) : nat := if (size =? 1)%nat then 0%nat else i.

(** An elementwise binary operation on two matrices, with broadcasting;
    shapes that do not broadcast raise [RuntimeError]. *)
Definition ewise2 (f : R -> R -> R) (a b : Tensor2) : result Tensor2 :=
  match bdim (rows2 a) (rows2 b), bdim (cols2 a) (cols2 b) with
  | Some r, Some c =>
      Ok (mkT2 r c (fun i j =>
            f (at2 a (bidx (rows2 a) i) (bidx (cols2 a) j))
              (at2 b (bidx (rows2 b) i) (bidx (cols2 b) j))))
  | _, _ => Raise RuntimeError
  end.

Definition sub (a b : Tensor2) : result Tensor2 := ewise2 Rminus a b.

Definition mul (a b : Tensor2) : result Tensor2 := ewise2 Rmult a b.

(** [c + t] and [c * t] for a Python number [c]. *)
Definition radd (c : R) (t : Tensor2) : Tensor2 := map2d (fun x => c + x) t.

Definition rmul (c : R) (t : Tensor2) : Tensor2 := map2d (fun x => c * x) t.

Definition pow2 (t : Tensor2) : Tensor2 := map2d (fun x => x ^ 2) t.

Definition texp (t : Tensor2) : Tensor2 := map2d exp t.

(** [torch.sum(t, 1)]: one sum per row. *)
Definition sum_dim1 (t : Tensor2) : Tensor1 :=
  mkT1 (rows2 t) (fun i => sum_upto (cols2 t) (fun j => at2 t i j)).

Definition mean1 (t : Tensor1) : scalar :=
  match len1 t with
  | O => NaN
  | S _ => Fin (sum_upto (len1 t) (at1 t) / INR (len1 t))
  end.

Definition sum3 (t : Tensor3) : R :=
  sum_upto (dim0 t) (fun i =>
    sum_upto (dim1 t) (fun j =>
      sum_upto (dim2 t) (fun k => at3 t i j k))).

Definition mean3 (t : Tensor3) : scalar :=
  match numel3 t with
  | O => NaN
  | S _ => Fin (sum3 t / INR (numel3 t))
  end.

(** [t.unsqueeze(2).repeat(1, 1, c)] on a matrix. *)
Definition unsqueeze2_repeat (t : Tensor2) (c : nat) : Tensor3 :=
  mkT3 (rows2 t) (cols2 t) c (fun i j _ => at2 t i j).

(** [t.t()] *)
Definition t (a : Tensor2) : Tensor2 :=
  mkT2 (cols2 a) (rows2 a) (fun i j => at2 a j i).

(** [torch.mm(a, b)] and, on matrices, [torch.matmul(a, b)]. *)
Definition mm (a b : Tensor2) : result Tensor2 :=
  if (cols2 a =? rows2 b)%nat then
    Ok (mkT2 (rows2 a) (cols2 b)
          (fun i j => sum_upto (cols2 a) (fun k => at2 a i k * at2 b k j)))
  else Raise RuntimeError.

(** Position [i] of a dimension of size [n]; negative positions count from
    the end. *)
Definition wrap_index (n : nat) (i : Z) : option nat :=
  if ((0 <=? i) && (i <? Z.of_nat n))%Z then Some (Z.to_nat i)
  else if ((- Z.of_nat n <=? i) && (i <? 0))%Z then Some (Z.to_nat (i + Z.of_nat n))
  else None.

Definition all_in_range (n : nat) (idx : LongTensor1) : bool :=
  forallb (fun e => match wrap_index n (lat1 idx e) with Some _ => true | None => false end)
          (seq 0 (llen idx)).

Definition row_of (n : nat) (i : Z) : nat :=
  match wrap_index n i with Some r => r | None => 0%nat end.

(** [t[idx]]: the rows of [t] named by the index tensor. *)
Definition index_rows (a : Tensor2) (idx : LongTensor1) : result Tensor2 :=
  if all_in_range (rows2 a) idx then
    Ok (mkT2 (llen idx) (cols2 a) (fun e j => at2 a (row_of (rows2 a) (lat1 idx e)) j))
  else Raise IndexError.

(** [t[r]] on a two-dimensional index tensor, for a Python integer [r]. *)
Definition long_row (a : LongTensor2) (r : nat) : result LongTensor1 :=
  if (r <? lrows a)%nat then Ok (mkL1 (lcols a) (fun e => lat2 a r e))
  else Raise IndexError.

(** [torch.cat([a, b])]: along dimension 0. *)
Definition cat (a b : Tensor2) : result Tensor2 :=
  if (cols2 a =? cols2 b)%nat then
    Ok (mkT2 (rows2 a + rows2 b) (cols2 a)
          (fun i j => if (i <? rows2 a)%nat then at2 a i j else at2 b (i - rows2 a)%nat j))
  else Raise RuntimeError.

End torch.

(** ** The random generator

    The state of the generator is the stream of uniform draws of [[0,1)] it
    has yet to hand out to dropout; an operation that draws [n] numbers
    takes the first [n] and leaves the rest.  The draws that initialise
    parameters are not taken from this stream: see [initializer]. *)

Definition rng : Type := nat -> R.

Definition advance (n : nat) (g : rng) : rng := fun m => g (n + m)%nat.

Module F.

Definition relu (x : R) : R := Rmax 0 x.

Definition sigmoid (x : R) : R := torch.sigmoid x.

(** One element under dropout with rate [p], [u] being its draw: kept and
    rescaled with probability [1 - p], zeroed otherwise. *)
Definition drop (p u x : R) : R :=
  if Rlt_dec u (1 - p) then x * (1 / (1 - p)) else 0.

Definition valid_rate (p : R) : bool :=
  if Rlt_dec p 0 then false else if Rlt_dec 1 p then false else true.

(** [F.dropout(t, p, training)] on a matrix.  The rate is checked first,
    whatever the mode.  Outside training, at rate zero and on a tensor without
    elements the input comes back and nothing is drawn; at rate one the input
    is multiplied by zero and nothing is drawn; otherwise every element takes
    one draw. *)
Definition dropout2 (a : Tensor2) (p : R) (training : bool) (g : rng)
  : result (Tensor2 * rng) :=
  if valid_rate p then
    if training then
      if Req_dec_T p 0 then Ok (a, g)
      else if (numel2 a =? 0)%nat then Ok (a, g)
      else if Req_dec_T p 1 then
        Ok (mkT2 (rows2 a) (cols2 a) (fun i j => at2 a i j * 0), g)
      else
        Ok (mkT2 (rows2 a) (cols2 a)
              (fun i j => drop p (g (i * cols2 a + j)%nat) (at2 a i j)),
            advance (numel2 a) g)
    else Ok (a, g)
  else Raise ValueError.

(** [F.dropout(t, p, training)] on a three-dimensional tensor. *)
Definition dropout3 (a : Tensor3) (p : R) (training : bool) (g : rng)
  : result (Tensor3 * rng) :=
  if valid_rate p then
    if training then
      if Req_dec_T p 0 then Ok (a, g)
      else if (numel3 a =? 0)%nat then Ok (a, g)
      else if Req_dec_T p 1 then
        Ok (mkT3 (dim0 a) (dim1 a) (dim2 a) (fun i j k => at3 a i j k * 0), g)
      else
        Ok (mkT3 (dim0 a) (dim1 a) (dim2 a)
              (fun i j k => drop p (g ((i * dim1 a + j) * dim2 a + k)%nat) (at3 a i j k)),
            advance (numel3 a) g)
    else Ok (a, g)
  else Raise ValueError.

(** The loss of one logit [x] against one target [y] with positive-class
    weight [pw]: [-(pw * y * log (sigmoid x) + (1 - y) * log (1 - sigmoid x))]. *)
Definition bce_logit (pw x y : R) : R :=
  - (pw * y * ln (torch.sigmoid x) + (1 - y) * ln (1 - torch.sigmoid x)).

(** [F.binary_cross_entropy_with_logits(input, target, pos_weight=[pw])]
    with the default mean reduction; the sizes of input and target must
    agree. *)
Definition binary_cross_entropy_with_logits
           (input target : Tensor3) (pw : R) : result scalar :=
  if same_shape3 target input then
    Ok (torch.mean3
          (mkT3 (dim0 input) (dim1 input) (dim2 input)
             (fun i j k => bce_logit pw (at3 input i j k) (at3 target i j k))))
  else Raise ValueError.

End F.

(** ** gae/optimizer.py *)

Module optimizer.

(** The second summand of [loss_function]:
    [-0.5 / n_nodes * torch.mean(torch.sum(
       1 + 2 * logvar - mu.pow(2) - logvar.exp().pow(2), 1))]. *)
Definition KLD (mu logvar : Tensor2) (n_nodes : nat) : result scalar :=
  match n_nodes with
  | O => Raise ZeroDivisionError
  | S _ =>
      let c := -0.5 / INR n_nodes in
      t1 <- torch.sub (torch.radd 1 (torch.rmul 2 logvar)) (torch.pow2 mu) ;;
      t2 <- torch.sub t1 (torch.pow2 (torch.texp logvar)) ;;
      Ok (scalar_scale c (torch.mean1 (torch.sum_dim1 t2)))
  end.

Definition loss_function (preds : Tensor3) (labels mu logvar : Tensor2)
           (n_nodes : nat) (norm pos_weight : R) : result scalar :=
  let labels := torch.unsqueeze2_repeat labels 10 in
  bce <- F.binary_cross_entropy_with_logits preds labels pos_weight ;;
  let cost := scalar_scale norm bce in
  KLD <- KLD mu logvar n_nodes ;;
  Ok (scalar_add cost KLD).

End optimizer.

(** ** Inputs of the models *)

(** The configuration object ([args]). *)
Module Args.

Record t : Type := mk {
  model : string;
  hidden_dim : nat;
  dropout : R;
  num_classes : nat
}.

End Args.

(** A graph or a batch of one.  [x] is [None] for a graph without node
    features; [neg_edge_index] is an attribute only some batches have. *)
Module Data.

Record t : Type := mk {
  x : option Tensor2;
  num_nodes : nat;
  node_ids : LongTensor1;
  pos_edge_index : LongTensor2;
  neg_edge_index : option LongTensor2
}.

End Data.

(** The values parameters start from: what the initialisers draw and what
    [torch.empty] happens to hold.  [weight_of n] and [bias_of n] belong to
    the [n]-th linear layer a constructor creates.  A layer created with its
    input width is initialised by the constructor; a layer created without
    one is initialised inside its first call, when the library learns the
    width and draws the weights from the generator.  Either way the values
    are those of the [initializer]: the embedding describes a module by the
    values its parameters have, not by the moment they were drawn, and none
    of the draws of initialisation is counted in [rng].  Training changes
    the values of parameters, never their shapes. *)
Record initializer : Type := mkInit {
  weight_of : nat -> nat -> nat -> R;
  bias_of : nat -> nat -> R;
  empty_of : nat -> nat -> R;
  xavier_of : nat -> nat -> R
}.

(** ** torch_geometric.nn.Linear

    [y = x W^T + b] on the last dimension.  A layer created with
    [in_channels = -1] has no input width yet ([None]) and takes the width of
    the input it is given; a layer that has a width ([Some]), from its
    creation or from an earlier call, raises [RuntimeError] on an input of
    another width.  A forward pass does not update the layer: on a layer
    without width it is the first call of that layer. *)

Module Linear.

Record t : Type := mk {
  in_channels : option nat;
  out_channels : nat;
  weight : nat -> nat -> R;
  bias : nat -> R
}.

Definition width (self : t) (n : nat) : result nat :=
  match in_channels self with
  | None => Ok n
  | Some m => if (n =? m)%nat then Ok n else Raise RuntimeError
  end.

Definition apply (self : t) (n : nat) (v : nat -> R) (o : nat) : R :=
  sum_upto n (fun k => v k * weight self o k) + bias self o.

Definition forward2 (self : t) (z : Tensor2) : result Tensor2 :=
  n <- width self (cols2 z) ;;
  Ok (mkT2 (rows2 z) (out_channels self) (fun i o => apply self n (at2 z i) o)).

Definition forward3 (self : t) (z : Tensor3) : result Tensor3 :=
  n <- width self (dim2 z) ;;
  Ok (mkT3 (dim0 z) (dim1 z) (out_channels self) (fun i j o => apply self n (at3 z i j) o)).

End Linear.

(** [seq[-1]] *)
Definition py_last {A : Type} (l : list A) : result A :=
  match rev l with
  | [] => Raise IndexError
  | a :: _ => Ok a
  end.

(** ** model.py *)

Module LinearClassifier.

Record t : Type := mk {
  hidden_dim : nat;
  dropout : R;
  num_classes : nat;
  layers : list Linear.t;
  training : bool
}.

Definition __init__ (args : Args.t) (ini : initializer) : t :=
  let hidden := Args.hidden_dim args in
  mk hidden (Args.dropout args) (Args.num_classes args)
     [ Linear.mk None hidden (weight_of ini 0) (bias_of ini 0);
       Linear.mk (Some hidden) hidden (weight_of ini 1) (bias_of ini 1);
       Linear.mk (Some hidden) (Args.num_classes args) (weight_of ini 2) (bias_of ini 2) ]
     true.

Definition eval (self : t) : t :=
  mk (hidden_dim self) (dropout self) (num_classes self) (layers self) false.

(** The loop over [self.layers[:-1]].  [F.dropout(z, self.dropout)] is called
    without [training], whose default is [True]. *)
Fixpoint hidden_layers (ls : list Linear.t) (p : R) (z : Tensor3) (g : rng)
  : result (Tensor3 * rng) :=
  match ls with
  | [] => Ok (z, g)
  | layer :: rest =>
      y <- Linear.forward3 layer z ;;
      let z := torch.map3d F.relu y in
      '(z, g) <- F.dropout3 z p true g ;;
      hidden_layers rest p z g
  end.

Definition forward (self : t) (z : Tensor3) (g : rng) : result (Tensor3 * rng) :=
  '(z, g) <- hidden_layers (removelast (layers self)) (dropout self) z g ;;
  final <- py_last (layers self) ;;
  z <- Linear.forward3 final z ;;
  Ok (z, g).

End LinearClassifier.

Module InnerProductDecoder.

Record t : Type := mk {
  dropout : R;
  num_classes : nat;
  classifier : LinearClassifier.t;
  training : bool
}.

Definition __init__ (args : Args.t) (ini : initializer) : t :=
  mk (Args.dropout args) (Args.num_classes args) (LinearClassifier.__init__ args ini) true.

Definition eval (self : t) : t :=
  mk (dropout self) (num_classes self) (LinearClassifier.eval (classifier self)) false.

Definition forward (self : t) (z : Tensor2) (g : rng) : result (Tensor3 * rng) :=
  '(z, g) <- F.dropout2 z (dropout self) (training self) g ;;
  zz <- torch.mm z (torch.t z) ;;
  let adj := torch.map2d torch.sigmoid zz in
  let adj_3D := torch.unsqueeze2_repeat adj (num_classes self) in
  '(a_hat, g) <- LinearClassifier.forward (classifier self) adj_3D g ;;
  Ok (torch.map3d F.sigmoid a_hat, g).

End InnerProductDecoder.

(** The convolutions of [RGCNEncoder] are kernels of the graph library; the
    model records how the constructor configures them and goes no further.
    A convolution in [num_blocks] blocks asserts that the block count divides
    both of its widths. *)
Module RGCNEncoder.

Record RGCNConv : Type := mkConv {
  conv_in : nat;
  conv_out : nat;
  conv_relations : nat;
  num_blocks : nat
}.

Record t : Type := mk {
  in_channels : nat;
  conv1 : RGCNConv;
  conv2 : RGCNConv;
  training : bool
}.

Definition new_conv (in_channels out_channels num_relations num_blocks : nat)
  : result RGCNConv :=
  if ((in_channels mod num_blocks =? 0) && (out_channels mod num_blocks =? 0))%nat
  then Ok (mkConv in_channels out_channels num_relations num_blocks)
  else Raise AssertionError.

Definition __init__ (num_nodes hidden_channels num_relations : nat) : result t :=
  conv1 <- new_conv 300 hidden_channels num_relations 5 ;;
  conv2 <- new_conv hidden_channels hidden_channels num_relations 5 ;;
  Ok (mk 300 conv1 conv2 true).

End RGCNEncoder.

Module MLPEncoder.

(** [featureless] and [node_embeddings] are attributes the constructor sets
    on one branch only: [None] is an object without the attribute. *)
Record t : Type := mk {
  featureless : option bool;
  node_embeddings : option Tensor2;
  dropout : R;
  linear1 : Linear.t;
  linear2 : Linear.t;
  linear3 : Linear.t;
  training : bool
}.

Definition __init__ (args : Args.t) (data : Data.t) (ini : initializer) : t :=
  let hidden := Args.hidden_dim args in
  let no_x := match Data.x data with None => true | Some _ => false end in
  mk (if no_x then Some true else None)
     (if no_x then Some (mkT2 (Data.num_nodes data) hidden (empty_of ini)) else None)
     (Args.dropout args)
     (Linear.mk None hidden (weight_of ini 0) (bias_of ini 0))
     (Linear.mk (Some hidden) hidden (weight_of ini 1) (bias_of ini 1))
     (Linear.mk (Some hidden) hidden (weight_of ini 2) (bias_of ini 2))
     true.

Definition eval (self : t) : t :=
  mk (featureless self) (node_embeddings self) (dropout self)
     (linear1 self) (linear2 self) (linear3 self) false.

(** Reading an attribute of the object. *)
Definition getattr {A : Type} (field : option A) : result A :=
  match field with
  | Some a => Ok a
  | None => Raise AttributeError
  end.

(** [self.linear1(batch.x)] *)
Definition linear1_on_x (self : t) (batch : Data.t) : result Tensor2 :=
  match Data.x batch with
  | Some x => Linear.forward2 (linear1 self) x
  | None =>
      match Linear.in_channels (linear1 self) with
      | None => Raise AttributeError
      | Some _ => Raise TypeError
      end
  end.

Definition forward (self : t) (batch : Data.t) (g : rng) : result (Tensor2 * rng) :=
  flag <- getattr (featureless self) ;;
  h <- (if flag : bool then
          emb <- getattr (node_embeddings self) ;;
          rows <- torch.index_rows emb (Data.node_ids batch) ;;
          Linear.forward2 (linear1 self) rows
        else linear1_on_x self batch) ;;
  let z := torch.map2d F.relu h in
  '(z, g) <- F.dropout2 z (dropout self) (training self) g ;;
  h <- Linear.forward2 (linear2 self) z ;;
  let z := torch.map2d F.relu h in
  '(z, g) <- F.dropout2 z (dropout self) (training self) g ;;
  h <- Linear.forward2 (linear3 self) z ;;
  Ok (torch.map2d F.relu h, g).

End MLPEncoder.

Module DistMultDecoder.

Record t : Type := mk { rel_emb : Tensor2 }.

Definition __init__ (num_relations hidden_channels : nat) (ini : initializer) : t :=
  mk (mkT2 num_relations hidden_channels (xavier_of ini)).

Definition forward (self : t) (z : Tensor2) (edge_index : LongTensor2)
           (edge_type : LongTensor1) : result Tensor1 :=
  src <- torch.long_row edge_index 0 ;;
  z_src <- torch.index_rows z src ;;
  dst <- torch.long_row edge_index 1 ;;
  z_dst <- torch.index_rows z dst ;;
  rel <- torch.index_rows (rel_emb self) edge_type ;;
  zr <- torch.mul z_src rel ;;
  zrz <- torch.mul zr z_dst ;;
  Ok (torch.sum_dim1 zrz).

End DistMultDecoder.

Module HetDistMultDecoder.

Record t : Type := mk { rel_emb : Tensor2; num_relations : nat }.

Definition __init__ (num_relations hidden_channels : nat) (ini : initializer) : t :=
  mk (mkT2 hidden_channels (num_relations + 1) (xavier_of ini)) num_relations.

(** Scores of the edges of one index tensor against every relation column. *)
Definition scores (self : t) (z : Tensor2) (edge_index : LongTensor2) : result Tensor2 :=
  src <- torch.long_row edge_index 0 ;;
  z_src <- torch.index_rows z src ;;
  dst <- torch.long_row edge_index 1 ;;
  z_dst <- torch.index_rows z dst ;;
  zz <- torch.mul z_src z_dst ;;
  torch.mm zz (rel_emb self).

Definition forward (self : t) (z : Tensor2) (batch : Data.t) : result Tensor2 :=
  out <- scores self z (Data.pos_edge_index batch) ;;
  match Data.neg_edge_index batch with
  | Some neg =>
      neg_out <- scores self z neg ;;
      torch.cat out neg_out
  | None => Ok out
  end.

End HetDistMultDecoder.

(** ** The module object and [get_model] *)

Open Scope string_scope.

Inductive model_class : Type :=
| cls_LinearClassifier
| cls_InnerProductDecoder
| cls_RGCNEncoder
| cls_MLPEncoder
| cls_DistMultDecoder
| cls_HetDistMultDecoder.

(** What a name looked up on the module [model] is bound to. *)
Inductive member : Type :=
| Plain                              (* a string, [None], a dict: not callable *)
| ImportedModule
| ImportedClass
| Function_get_model
| LocalClass (c : model_class)
| TypeAttribute.                     (* found on the type of module objects *)

Inductive instance : Type :=
| I_LinearClassifier (o : LinearClassifier.t)
| I_InnerProductDecoder (o : InnerProductDecoder.t)
| I_RGCNEncoder (o : RGCNEncoder.t)
| I_MLPEncoder (o : MLPEncoder.t)
| I_DistMultDecoder (o : DistMultDecoder.t)
| I_HetDistMultDecoder (o : HetDistMultDecoder.t)
| I_Foreign (repr : string).         (* any object that is no instance of these *)

(** The objects this module passes around as positional arguments. *)
Inductive pyobj : Type :=
| PyArgs (a : Args.t)
| PyData (d : Data.t).

(** What lies outside the module.  [call name actuals] is what calling the
    object of that name does: a class imported from a library, or an
    attribute every module object has from its type ([__class__],
    [__subclasshook__], ...).  It raises or returns an object that is no
    instance of a class of this module, given by its [repr].  [inherited]
    tells which names the type of module objects provides; the interpreter
    settles them. *)
Record library : Type := mkLibrary {
  call : string -> list pyobj -> result string;
  inherited : string -> bool
}.

Definition class_name (c : model_class) : string :=
  match c with
  | cls_LinearClassifier => "LinearClassifier"
  | cls_InnerProductDecoder => "InnerProductDecoder"
  | cls_RGCNEncoder => "RGCNEncoder"
  | cls_MLPEncoder => "MLPEncoder"
  | cls_DistMultDecoder => "DistMultDecoder"
  | cls_HetDistMultDecoder => "HetDistMultDecoder"
  end.

(** The namespace of the module, in the order the file binds its names
    (after the ones every module has). *)
Definition module_dict : list (string * member) :=
  [ ("__name__", Plain); ("__doc__", Plain); ("__package__", Plain);
    ("__loader__", Plain); ("__spec__", Plain); ("__file__", Plain);
    ("__cached__", Plain); ("__builtins__", Plain);
    ("importlib", ImportedModule); ("inspect", ImportedModule);
    ("sys", ImportedModule); ("torch", ImportedModule);
    ("nn", ImportedModule); ("F", ImportedModule); ("pyg", ImportedModule);
    ("torch_geometric", ImportedModule);
    ("GCNConv", ImportedClass); ("RGCNConv", ImportedClass);
    ("Linear", ImportedClass); ("Parameter", ImportedClass);
    ("GraphConvolution", ImportedClass); ("GAE", ImportedClass);
    ("get_model", Function_get_model);
    (class_name cls_LinearClassifier, LocalClass cls_LinearClassifier);
    (class_name cls_InnerProductDecoder, LocalClass cls_InnerProductDecoder);
    (class_name cls_RGCNEncoder, LocalClass cls_RGCNEncoder);
    (class_name cls_MLPEncoder, LocalClass cls_MLPEncoder);
    (class_name cls_DistMultDecoder, LocalClass cls_DistMultDecoder);
    (class_name cls_HetDistMultDecoder, LocalClass cls_HetDistMultDecoder) ].

(** Looking a name up in a namespace. *)
Fixpoint getattr (d : list (string * member)) (name : string) : option member :=
  match d with
  | [] => None
  | (k, v) :: rest => if String.eqb k name then Some v else getattr rest name
  end.

(** [getattr(module, name)]: the namespace of the module, then the
    attributes of its type (none of the names of [module_dict] is a
    descriptor of the type that would come first); [None] stands for
    [AttributeError]. *)
Definition module_getattr (lib : library) (name : string) : option member :=
  match getattr module_dict name with
  | Some m => Some m
  | None => if inherited lib name then Some TypeAttribute else None
  end.

Fixpoint insert_sorted (s : string) (l : list string) : list string :=
  match l with
  | [] => [s]
  | h :: tl => if String.leb s h then s :: l else h :: insert_sorted s tl
  end.

Definition sorted (l : list string) : list string := fold_right insert_sorted [] l.

(** The names [inspect.getmembers] returns for the predicate of [get_model]:
    the classes whose [__module__] is this module, sorted by name. *)
Definition getmembers_local_classes (d : list (string * member)) : list string :=
  sorted (map fst (filter (fun kv => match snd kv with LocalClass _ => true | _ => false end) d)).

(** [repr] of a list of strings. *)
Definition repr_list (l : list string) : string :=
  ("[" ++ String.concat ", " (map (fun s => "'" ++ s ++ "'") l) ++ "]")%string.

Definition not_implemented_msg (name : string) : string :=
  (name ++ " is not implemented. Choose a model in the list: "
        ++ repr_list (getmembers_local_classes module_dict))%string.

(** Calling a class of the module with the given positional arguments.
    [LinearClassifier] and [InnerProductDecoder] take one argument, the
    configuration; [MLPEncoder] takes the configuration and the data;
    [RGCNEncoder] takes three integers and the DistMult decoders two, on
    which they do arithmetic and size tensors: objects in their place raise
    [TypeError]. *)
Definition construct (c : model_class) (actuals : list pyobj) (ini : initializer)
  : result instance :=
  match c, actuals with
  | cls_LinearClassifier, [PyArgs args] =>
      Ok (I_LinearClassifier (LinearClassifier.__init__ args ini))
  | cls_LinearClassifier, [PyData _] => Raise AttributeError
  | cls_InnerProductDecoder, [PyArgs args] =>
      Ok (I_InnerProductDecoder (InnerProductDecoder.__init__ args ini))
  | cls_InnerProductDecoder, [PyData _] => Raise AttributeError
  | cls_MLPEncoder, [PyArgs args; PyData data] =>
      Ok (I_MLPEncoder (MLPEncoder.__init__ args data ini))
  | cls_MLPEncoder, [_; _] => Raise AttributeError
  | cls_RGCNEncoder, [_; _; _] => Raise TypeError
  | cls_DistMultDecoder, [_; _] => Raise TypeError
  | cls_HetDistMultDecoder, [_; _] => Raise TypeError
  | _, _ => Raise TypeError          (* wrong number of positional arguments *)
  end.

(** [sys.getrecursionlimit()] *)
Definition recursion_limit : nat := 1000.

(** [get_model] with [frames] call frames left on the stack. *)
Fixpoint get_model_in (frames : nat) (lib : library) (ini : initializer)
         (args : Args.t) (data : Data.t) : result instance :=
  match frames with
  | O => Raise RecursionError
  | S frames' =>
      let msg := not_implemented_msg (Args.model args) in
      match module_getattr lib (Args.model args) with
      | None => Raise (NotImplementedError msg)
      | Some _class =>
          match _class with
          | Plain | ImportedModule => Raise TypeError
          | ImportedClass | TypeAttribute =>
              obj <- call lib (Args.model args) [PyArgs args; PyData data] ;;
              Ok (I_Foreign obj)
          | Function_get_model => get_model_in frames' lib ini args data
          | LocalClass c => construct c [PyArgs args; PyData data] ini
          end
      end
  end.

Definition get_model (lib : library) (ini : initializer) (args : Args.t) (data : Data.t)
  : result instance :=
  get_model_in recursion_limit lib ini args data.

Definition instance_of (c : model_class) (o : instance) : bool :=
  match c, o with
  | cls_LinearClassifier, I_LinearClassifier _
  | cls_InnerProductDecoder, I_InnerProductDecoder _
  | cls_RGCNEncoder, I_RGCNEncoder _
  | cls_MLPEncoder, I_MLPEncoder _
  | cls_DistMultDecoder, I_DistMultDecoder _
  | cls_HetDistMultDecoder, I_HetDistMultDecoder _ => true
  | _, _ => false
  end.

(** * The same code over binary32 numbers

    The tensors of the program hold IEEE 754 binary32 numbers, and the numbers
    of Python itself are binary64.  The definitions above compute in the
    reals: they say which expression the code evaluates.  The definitions of
    this part compute the same expressions as the machine does, with
    rounding to nearest even, infinities and nan, for the properties on which
    the two disagree.  A sum is accumulated from left to right, starting from
    zero.  The functions the tensor library computes on its own account
    (exponential, sigmoid, cross-entropy) are parameters of the functions
    that call them. *)

Module f32.

Definition float : Type := spec_float.

Definition add : float -> float -> float := SFadd 24 128.

Definition sub : float -> float -> float := SFsub 24 128.

Definition mul : float -> float -> float := SFmul 24 128.

Definition div : float -> float -> float := SFdiv 24 128.

Definition of_Z (n : Z) : float := binary_normalize 24 128 n 0 false.

Definition zero : float := S754_zero false.

Definition one : float := of_Z 1.

Definition is_nan (x : float) : bool :=
  match x with
  | S754_nan => true
  | _ => false
  end.

Definition is_finite (x : float) : bool :=
  match x with
  | S754_zero _ | S754_finite _ _ _ => true
  | S754_infinity _ | S754_nan => false
  end.

(** The numbers of Python: binary64. *)
Module py.

Definition float : Type := spec_float.

Definition of_Z (n : Z) : float := binary_normalize 53 1024 n 0 false.

Definition sub : float -> float -> float := SFsub 53 1024.

Definition div : float -> float -> float := SFdiv 53 1024.

End py.

(** A Python number entering a binary32 computation is rounded once more. *)
Definition of_py (x : py.float) : float :=
  match x with
  | S754_finite s m e => binary_normalize 24 128 (cond_Zopp s (Zpos m)) e s
  | _ => x
  end.

Definition sum_upto (n : nat) (f : nat -> float) : float :=
  fold_left add (map f (seq 0 n)) zero.

Record Tensor1 : Type := mkT1 { len1 : nat; at1 : nat -> float }.

Record Tensor2 : Type := mkT2 { rows2 : nat; cols2 : nat; at2 : nat -> nat -> float }.

Record Tensor3 : Type :=
  mkT3 { dim0 : nat; dim1 : nat; dim2 : nat; at3 : nat -> nat -> nat -> float }.

Definition numel2 (t : Tensor2) : nat := (rows2 t * cols2 t)%nat.

Definition numel3 (t : Tensor3) : nat := (dim0 t * dim1 t * dim2 t)%nat.

Definition same_shape3 (a b : Tensor3) : bool :=
  ((dim0 a =? dim0 b) && (dim1 a =? dim1 b) && (dim2 a =? dim2 b))%nat.

Definition tensor2_of (c : nat) (l : list (list float)) : Tensor2 :=
  mkT2 (List.length l) c (fun i j => nth j (nth i l []) zero).

(** Shapes, broadcasting and indexing do not depend on the numbers:
    [torch.bdim], [torch.bidx], [torch.all_in_range], [torch.row_of] and
    [torch.long_row] are those of the first part. *)
Module torch.

Definition zeros2 (r c : nat) : Tensor2 := mkT2 r c (fun _ _ => zero).

Definition zeros3 (a b c : nat) : Tensor3 := mkT3 a b c (fun _ _ _ => zero).

Definition map2d (f : float -> float) (t : Tensor2) : Tensor2 :=
  mkT2 (rows2 t) (cols2 t) (fun i j => f (at2 t i j)).

Definition map3d (f : float -> float) (t : Tensor3) : Tensor3 :=
  mkT3 (dim0 t) (dim1 t) (dim2 t) (fun i j k => f (at3 t i j k)).

Definition ewise2 (f : float -> float -> float) (a b : Tensor2) : result Tensor2 :=
  match torch.bdim (rows2 a) (rows2 b), torch.bdim (cols2 a) (cols2 b) with
  | Some r, Some c =>
      Ok (mkT2 r c (fun i j =>
            f (at2 a (torch.bidx (rows2 a) i) (torch.bidx (cols2 a) j))
              (at2 b (torch.bidx (rows2 b) i) (torch.bidx (cols2 b) j))))
  | _, _ => Raise RuntimeError
  end.

(** [torch.sum(t, 1)] *)
Definition sum_dim1 (t : Tensor2) : Tensor1 :=
  mkT1 (rows2 t) (fun i => sum_upto (cols2 t) (fun j => at2 t i j)).

(** [torch.mean(t)] on a vector: the sum divided by the number of elements;
    [0 / 0] is nan. *)
Definition mean1 (t : Tensor1) : float :=
  div (sum_upto (len1 t) (at1 t)) (of_Z (Z.of_nat (len1 t))).

Definition unsqueeze2_repeat (t : Tensor2) (c : nat) : Tensor3 :=
  mkT3 (rows2 t) (cols2 t) c (fun i j _ => at2 t i j).

Definition t (a : Tensor2) : Tensor2 :=
  mkT2 (cols2 a) (rows2 a) (fun i j => at2 a j i).

Definition mm (a b : Tensor2) : result Tensor2 :=
  if (cols2 a =? rows2 b)%nat then
    Ok (mkT2 (rows2 a) (cols2 b)
          (fun i j => sum_upto (cols2 a) (fun k => mul (at2 a i k) (at2 b k j))))
  else Raise RuntimeError.

Definition index_rows (a : Tensor2) (idx : LongTensor1) : result Tensor2 :=
  if torch.all_in_range (rows2 a) idx then
    Ok (mkT2 (llen idx) (cols2 a)
          (fun e j => at2 a (torch.row_of (rows2 a) (lat1 idx e)) j))
  else Raise IndexError.

End torch.

(** The generator hands out binary64 draws of [[0, 1)]. *)
Definition rng : Type := nat -> py.float.

Definition advance (n : nat) (g : rng) : rng := fun m => g (n + m)%nat.

Module F.

(** [F.relu]; nan stays nan. *)
Definition relu (x : float) : float :=
  if is_nan x then x else if SFltb zero x then x else zero.

(** One entry of the mask of dropout: drawn 1 with probability [q = 1 - p],
    then divided by [q]. *)
Definition mask (q u : py.float) : float :=
  div (if SFltb u q then one else zero) (of_py q).

(** The checks of [F.dropout]: Python raises [ValueError] on a rate below 0
    or above 1, and the tensor library [RuntimeError] on a rate that is not
    between 0 and 1 (nan). *)
Definition check_rate (p : py.float) : result unit :=
  if SFltb p (py.of_Z 0) || SFltb (py.of_Z 1) p then Raise ValueError
  else if SFleb (py.of_Z 0) p && SFleb p (py.of_Z 1) then Ok tt
  else Raise RuntimeError.

Definition dropout2 (a : Tensor2) (p : py.float) (training : bool) (g : rng)
  : result (Tensor2 * rng) :=
  _ <- check_rate p ;;
  if SFeqb p (py.of_Z 0) || negb training || (numel2 a =? 0)%nat then Ok (a, g)
  else if SFeqb p (py.of_Z 1) then Ok (torch.map2d (fun x => mul x zero) a, g)
  else
    let q := py.sub (py.of_Z 1) p in
    Ok (mkT2 (rows2 a) (cols2 a)
          (fun i j => mul (at2 a i j) (mask q (g (i * cols2 a + j)%nat))),
        advance (numel2 a) g).

Definition dropout3 (a : Tensor3) (p : py.float) (training : bool) (g : rng)
  : result (Tensor3 * rng) :=
  _ <- check_rate p ;;
  if SFeqb p (py.of_Z 0) || negb training || (numel3 a =? 0)%nat then Ok (a, g)
  else if SFeqb p (py.of_Z 1) then Ok (torch.map3d (fun x => mul x zero) a, g)
  else
    let q := py.sub (py.of_Z 1) p in
    Ok (mkT3 (dim0 a) (dim1 a) (dim2 a)
          (fun i j k =>
             mul (at3 a i j k) (mask q (g ((i * dim1 a + j) * dim2 a + k)%nat))),
        advance (numel3 a) g).

End F.

Module optimizer.

(** [exp] is [torch.exp] on one number. *)
Definition KLD (exp : float -> float) (mu logvar : Tensor2) (n_nodes : nat)
  : result float :=
  match n_nodes with
  | O => Raise ZeroDivisionError
  | S _ =>
      let c := py.div (py.div (py.of_Z (-1)) (py.of_Z 2)) (py.of_Z (Z.of_nat n_nodes)) in
      t1 <- torch.ewise2 sub (torch.map2d (fun x => add one (mul (of_Z 2) x)) logvar)
                       (torch.map2d (fun x => mul x x) mu) ;;
      t2 <- torch.ewise2 sub t1 (torch.map2d (fun x => mul x x) (torch.map2d exp logvar)) ;;
      Ok (mul (of_py c) (torch.mean1 (torch.sum_dim1 t2)))
  end.

(** [bce_with_logits input target pos_weight] is the mean-reduced
    [F.binary_cross_entropy_with_logits] on tensors of one size; the check
    of the sizes is Python's. *)
Definition loss_function (exp : float -> float)
           (bce_with_logits : Tensor3 -> Tensor3 -> float -> float)
           (preds : Tensor3) (labels mu logvar : Tensor2)
           (n_nodes : nat) (norm pos_weight : py.float) : result float :=
  let labels := torch.unsqueeze2_repeat labels 10 in
  bce <- (if same_shape3 labels preds
          then Ok (bce_with_logits preds labels (of_py pos_weight))
          else Raise ValueError) ;;
  let cost := mul (of_py norm) bce in
  KLD <- KLD exp mu logvar n_nodes ;;
  Ok (add cost KLD).

End optimizer.

Module Args.

Record t : Type := mk {
  model : string;
  hidden_dim : nat;
  dropout : py.float;
  num_classes : nat
}.

End Args.

Record initializer : Type := mkInit {
  weight_of : nat -> nat -> nat -> float;
  bias_of : nat -> nat -> float;
  xavier_of : nat -> nat -> float
}.

Module Linear.

Record t : Type := mk {
  in_channels : option nat;
  out_channels : nat;
  weight : nat -> nat -> float;
  bias : nat -> float
}.

Definition width (self : t) (n : nat) : result nat :=
  match in_channels self with
  | None => Ok n
  | Some m => if (n =? m)%nat then Ok n else Raise RuntimeError
  end.

Definition apply (self : t) (n : nat) (v : nat -> float) (o : nat) : float :=
  add (sum_upto n (fun k => mul (v k) (weight self o k))) (bias self o).

Definition forward3 (self : t) (z : Tensor3) : result Tensor3 :=
  n <- width self (dim2 z) ;;
  Ok (mkT3 (dim0 z) (dim1 z) (out_channels self) (fun i j o => apply self n (at3 z i j) o)).

End Linear.

Module LinearClassifier.

Record t : Type := mk {
  hidden_dim : nat;
  dropout : py.float;
  num_classes : nat;
  layers : list Linear.t;
  training : bool
}.

Definition __init__ (args : Args.t) (ini : initializer) : t :=
  let hidden := Args.hidden_dim args in
  mk hidden (Args.dropout args) (Args.num_classes args)
     [ Linear.mk None hidden (weight_of ini 0) (bias_of ini 0);
       Linear.mk (Some hidden) hidden (weight_of ini 1) (bias_of ini 1);
       Linear.mk (Some hidden) (Args.num_classes args) (weight_of ini 2) (bias_of ini 2) ]
     true.

Definition eval (self : t) : t :=
  mk (hidden_dim self) (dropout self) (num_classes self) (layers self) false.

Fixpoint hidden_layers (ls : list Linear.t) (p : py.float) (z : Tensor3) (g : rng)
  : result (Tensor3 * rng) :=
  match ls with
  | [] => Ok (z, g)
  | layer :: rest =>
      y <- Linear.forward3 layer z ;;
      let z := torch.map3d F.relu y in
      '(z, g) <- F.dropout3 z p true g ;;
      hidden_layers rest p z g
  end.

Definition forward (self : t) (z : Tensor3) (g : rng) : result (Tensor3 * rng) :=
  '(z, g) <- hidden_layers (removelast (layers self)) (dropout self) z g ;;
  final <- py_last (layers self) ;;
  z <- Linear.forward3 final z ;;
  Ok (z, g).

End LinearClassifier.

Module InnerProductDecoder.

Record t : Type := mk {
  dropout : py.float;
  num_classes : nat;
  classifier : LinearClassifier.t;
  training : bool
}.

Definition __init__ (args : Args.t) (ini : initializer) : t :=
  mk (Args.dropout args) (Args.num_classes args) (LinearClassifier.__init__ args ini) true.

Definition eval (self : t) : t :=
  mk (dropout self) (num_classes self) (LinearClassifier.eval (classifier self)) false.

(** [sigmoid] is [torch.sigmoid] on one number. *)
Definition forward (sigmoid : float -> float) (self : t) (z : Tensor2) (g : rng)
  : result (Tensor3 * rng) :=
  '(z, g) <- F.dropout2 z (dropout self) (training self) g ;;
  zz <- torch.mm z (torch.t z) ;;
  let adj := torch.map2d sigmoid zz in
  let adj_3D := torch.unsqueeze2_repeat adj (num_classes self) in
  '(a_hat, g) <- LinearClassifier.forward (classifier self) adj_3D g ;;
  Ok (torch.map3d sigmoid a_hat, g).

End InnerProductDecoder.

Module DistMultDecoder.

Record t : Type := mk { rel_emb : Tensor2 }.

Definition __init__ (num_relations hidden_channels : nat) (ini : initializer) : t :=
  mk (mkT2 num_relations hidden_channels (xavier_of ini)).

Definition forward (self : t) (z : Tensor2) (edge_index : LongTensor2)
           (edge_type : LongTensor1) : result Tensor1 :=
  src <- torch.long_row edge_index 0 ;;
  z_src <- torch.index_rows z src ;;
  dst <- torch.long_row edge_index 1 ;;
  z_dst <- torch.index_rows z dst ;;
  rel <- torch.index_rows (rel_emb self) edge_type ;;
  zr <- torch.ewise2 mul z_src rel ;;
  zrz <- torch.ewise2 mul zr z_dst ;;
  Ok (torch.sum_dim1 zrz).

End DistMultDecoder.

(** Renumbering the nodes. *)
Definition permute_nodes3 (sigma : nat -> nat) (a : Tensor3) : Tensor3 :=
  mkT3 (dim0 a) (dim1 a) (dim2 a) (fun i j k => at3 a (sigma i) (sigma j) k).

Definition permute_nodes2 (sigma : nat -> nat) (a : Tensor2) : Tensor2 :=
  mkT2 (rows2 a) (cols2 a) (fun i j => at2 a (sigma i) (sigma j)).

Definition permute_rows (sigma : nat -> nat) (a : Tensor2) : Tensor2 :=
  mkT2 (rows2 a) (cols2 a) (fun i j => at2 a (sigma i) j).

End f32.

(** * Vocabulary of the statements *)

(** [sigma] permutes the positions [0 .. n-1]. *)
Definition permutes (n : nat) (sigma : nat -> nat) : Prop :=
  Permutation (map sigma (seq 0 n)) (seq 0 n).

(** Renumbering the nodes: on both node dimensions of the logits and of the
    labels, on the rows of a latent tensor. *)
Definition permute_nodes3 (sigma : nat -> nat) (a : Tensor3) : Tensor3 :=
  mkT3 (dim0 a) (dim1 a) (dim2 a) (fun i j k => at3 a (sigma i) (sigma j) k).

Definition permute_nodes2 (sigma : nat -> nat) (a : Tensor2) : Tensor2 :=
  mkT2 (rows2 a) (cols2 a) (fun i j => at2 a (sigma i) (sigma j)).

Definition permute_rows (sigma : nat -> nat) (a : Tensor2) : Tensor2 :=
  mkT2 (rows2 a) (cols2 a) (fun i j => at2 a (sigma i) j).

(** The two nodes of a graph exchanged. *)
Definition exchange (i : nat) : nat :=
  match i with
  | 0 => 1
  | 1 => 0
  | _ => i
  end%nat.

(** The closed-form KL term as the specification words it: the tensor
    [logvar] read as a log-variance, one average over the nodes. *)
Definition KLD_spec (mu logvar : Tensor2) : scalar :=
  scalar_scale (-0.5)
    (torch.mean1
       (mkT1 (rows2 mu) (fun i =>
          sum_upto (cols2 mu) (fun j =>
            1 + at2 logvar i j - at2 mu i j ^ 2 - exp (at2 logvar i j))))).

(** Two outcomes agree: the same exception, or tensors of one length with
    the same entries. *)
Definition same_result1 (a b : result Tensor1) : Prop :=
  match a, b with
  | Ok s, Ok s' => len1 s = len1 s' /\ forall e, (e < len1 s)%nat -> at1 s e = at1 s' e
  | Raise e, Raise e' => e = e'
  | _, _ => False
  end.

(** Every edge [(a, b)] turned into [(b, a)]: the two rows of the index
    tensor exchanged. *)
Definition swap_endpoints (edge_index : LongTensor2) : LongTensor2 :=
  mkL2 (lrows edge_index) (lcols edge_index)
       (fun r e => lat2 edge_index (match r with 0 => 1 | 1 => 0 | _ => r end)%nat e).

(** An index tensor names edges of a graph of [n] nodes: two rows, every
    entry a valid position. *)
Definition edges_of (n : nat) (edge_index : LongTensor2) : Prop :=
  (2 <= lrows edge_index)%nat
  /\ forall r e, (r < 2)%nat -> (e < lcols edge_index)%nat ->
                 (- Z.of_nat n <= lat2 edge_index r e < Z.of_nat n)%Z.

(** The number of edges of the batch that get scored. *)
Definition scored_edges (batch : Data.t) : nat :=
  (lcols (Data.pos_edge_index batch)
   + match Data.neg_edge_index batch with
     | Some neg => lcols neg
     | None => 0
     end)%nat.

(** Parameters that all start from one weight and one bias. *)
Definition constant_init (w b : R) : initializer :=
  mkInit (fun _ _ _ => w) (fun _ _ => b) (fun _ _ => w) (fun _ _ => w).

(** The layers of a classifier composed without any dropout. *)
Fixpoint plain_layers (ls : list Linear.t) (z : Tensor3) : result Tensor3 :=
  match ls with
  | [] => Ok z
  | layer :: rest =>
      y <- Linear.forward3 layer z ;;
      plain_layers rest (torch.map3d F.relu y)
  end.

Definition LinearClassifier_without_dropout (self : LinearClassifier.t) (z : Tensor3)
  : result Tensor3 :=
  z <- plain_layers (removelast (LinearClassifier.layers self)) z ;;
  final <- py_last (LinearClassifier.layers self) ;;
  Linear.forward3 final z.

(** A classifier of width one, every weight 1 and every bias 0, with
    dropout rate 1/2, put in evaluation mode. *)
Definition unit_classifier : LinearClassifier.t :=
  LinearClassifier.eval
    (LinearClassifier.__init__ (Args.mk "InnerProductDecoder" 1 (1 / 2) 1)
                               (constant_init 1 0)).

(** The layers of the encoder composed without any dropout. *)
Definition MLPEncoder_without_dropout (self : MLPEncoder.t) (batch : Data.t)
  : result Tensor2 :=
  flag <- MLPEncoder.getattr (MLPEncoder.featureless self) ;;
  h <- (if flag : bool then
          emb <- MLPEncoder.getattr (MLPEncoder.node_embeddings self) ;;
          rows <- torch.index_rows emb (Data.node_ids batch) ;;
          Linear.forward2 (MLPEncoder.linear1 self) rows
        else MLPEncoder.linear1_on_x self batch) ;;
  h <- Linear.forward2 (MLPEncoder.linear2 self) (torch.map2d F.relu h) ;;
  h <- Linear.forward2 (MLPEncoder.linear3 self) (torch.map2d F.relu h) ;;
  Ok (torch.map2d F.relu h).

(** The list of names the error message of [get_model] ends with. *)
Definition advertised_models : string :=
  "['DistMultDecoder', 'HetDistMultDecoder', 'InnerProductDecoder', 'LinearClassifier', 'MLPEncoder', 'RGCNEncoder']".

(** The logits have the shape of the labels, with ten channels. *)
Definition logits_match (preds : Tensor3) (labels : Tensor2) : Prop :=
  dim0 preds = rows2 labels /\ dim1 preds = cols2 labels /\ dim2 preds = 10%nat.

(** Two sizes of one dimension that broadcast. *)
Definition broadcastable (a b : nat) : Prop := a = b \/ a = 1%nat \/ b = 1%nat.

(** Two outcomes agree: the same exception, or matrices of one shape with
    the same entries. *)
Definition same_result2 (a b : result Tensor2) : Prop :=
  match a, b with
  | Ok s, Ok s' =>
      rows2 s = rows2 s' /\ cols2 s = cols2 s'
      /\ forall i j, (i < rows2 s)%nat -> (j < cols2 s)%nat -> at2 s i j = at2 s' i j
  | Raise e, Raise e' => e = e'
  | _, _ => False
  end.

(** A batch with the endpoints of every positive and negative edge
    exchanged. *)
Definition swap_batch (batch : Data.t) : Data.t :=
  Data.mk (Data.x batch) (Data.num_nodes batch) (Data.node_ids batch)
          (swap_endpoints (Data.pos_edge_index batch))
          (option_map swap_endpoints (Data.neg_edge_index batch)).


(** The DistMult score of the nodes at rows [a] and [b] of [z] under the
    relation at row [r] of the table. *)
Definition distmult_score (z rel : Tensor2) (a r b : nat) : R :=
  sum_upto (cols2 z) (fun k => at2 z a k * at2 rel r k * at2 z b k).

(** The score of the nodes at rows [a] and [b] against column [r] of the
    relation matrix of the heterogeneous decoder. *)
Definition het_score (z rel : Tensor2) (a b r : nat) : R :=
  sum_upto (cols2 z) (fun k => at2 z a k * at2 z b k * at2 rel k r).

(** Two outcomes of one kind: both raise the same exception, or both
    return. *)
Definition same_kind {A : Type} (a b : result A) : Prop :=
  match a, b with
  | Ok _, Ok _ => True
  | Raise e, Raise e' => e = e'
  | _, _ => False
  end.

(** Two outcomes of one kind whose score vectors, if any, have one length. *)
Definition same_kind1 (a b : result f32.Tensor1) : Prop :=
  match a, b with
  | Ok s, Ok s' => f32.len1 s = f32.len1 s'
  | Raise e, Raise e' => e = e'
  | _, _ => False
  end.

(** A binary32 number that is nan or lies in [[0, 1]]. *)
Definition unit_or_nan (x : f32.float) : bool :=
  f32.is_nan x || (SFleb f32.zero x && SFleb x f32.one).

(** The binary32 number nearest to ten to the twentieth. *)
Definition e20 : f32.float := f32.of_Z (10 ^ 20).

(** Python's [0.5]. *)
Definition half : f32.py.float := f32.py.div (f32.py.of_Z 1) (f32.py.of_Z 2).

(** Binary32 parameters that all start from weight 1 and bias 0. *)
Definition unit_init : f32.initializer :=
  f32.mkInit (fun _ _ _ => f32.one) (fun _ _ => f32.zero) (fun _ _ => f32.one).

(** A sigmoid made of three line segments, [x / 4 + 1 / 2] cut off at 0 and
    at 1, to run the decoder on: it keeps nan and stays within [[0, 1]], as
    the sigmoid of the tensor library does. *)
Definition hard_sigmoid (x : f32.float) : f32.float :=
  let y := f32.add (f32.div x (f32.of_Z 4)) (f32.of_py half) in
  if f32.is_nan y then y
  else if SFltb y f32.zero then f32.zero
  else if SFltb f32.one y then f32.one
  else if SFleb f32.zero y && SFleb y f32.one then y
  else S754_nan.

(** The first and the last of three nodes exchanged. *)
Definition swap02 (i : nat) : nat :=
  match i with
  | 0 => 2
  | 2 => 0
  | _ => i
  end%nat.

(** A layer that has its input width: created with one, or called before
    on an input of that width. *)
Definition materialized (layer : Linear.t) : Prop := Linear.in_channels layer <> None.

(** A featureless encoder over three nodes and two hidden units whose
    layers all have their widths, every weight 1 and every bias 0. *)
Definition called_encoder : MLPEncoder.t :=
  MLPEncoder.mk (Some true) (Some (tensor2_of 2 [[1; 2]; [3; 4]; [5; 6]])) (1 / 2)
    (Linear.mk (Some 2%nat) 2 (fun _ _ => 1) (fun _ => 0))
    (Linear.mk (Some 2%nat) 2 (fun _ _ => 1) (fun _ => 0))
    (Linear.mk (Some 2%nat) 2 (fun _ _ => 1) (fun _ => 0))
    true.

(** A library in which every name that starts with two underscores is an
    attribute of the module type, and every foreign object raises
    [TypeError] when called with the two arguments of [get_model]. *)
Definition dunder_library : library :=
  mkLibrary (fun _ _ => Raise TypeError) (String.prefix "__").

(** Every draw of the generator lies in [[0, 1)]. *)
Definition uniform_draws (g : rng) : Prop := forall m, 0 <= g m < 1.

(** Two three-dimensional tensors of one shape with the same entries. *)
Definition same_tensor3 (a b : Tensor3) : Prop :=
  dim0 a = dim0 b /\ dim1 a = dim1 b /\ dim2 a = dim2 b
  /\ forall i j k, at3 a i j k = at3 b i j k.

(** * Properties *)

(** ** Sums *)

Lemma Rsum_Permutation (l l' : list R) : Permutation l l' -> Rsum l = Rsum l'.
Proof.
  induction 1 as [| a l l' _ IH | a b l | l l' l'' _ IH1 _ IH2]; simpl.
  - reflexivity.
  - now rewrite IH.
  - ring.
  - now rewrite IH1.
Qed.

Lemma sum_upto_ext (n : nat) (f g : nat -> R) :
  (forall i, (i < n)%nat -> f i = g i) -> sum_upto n f = sum_upto n g.
Proof.
  intros H. unfold sum_upto. f_equal.
  apply map_ext_in. intros i Hi. apply in_seq in Hi. apply H. lia.
Qed.

Lemma sum_upto_const (n : nat) (c : R) : sum_upto n (fun _ => c) = INR n * c.
Proof.
  unfold sum_upto. generalize 0%nat.
  induction n as [| n IH]; intros s.
  - simpl. ring.
  - rewrite S_INR. cbn [seq map Rsum fold_right]. fold (Rsum (map (fun _ => c) (seq (S s) n))).
    rewrite IH. ring.
Qed.

Lemma sum_upto_zero (n : nat) (f : nat -> R) :
  (forall i, (i < n)%nat -> f i = 0) -> sum_upto n f = 0.
Proof.
  intros H. rewrite (sum_upto_ext n f (fun _ => 0) H), sum_upto_const. ring.
Qed.

Lemma permutes_lt (n : nat) (sigma : nat -> nat) (i : nat) :
  permutes n sigma -> (i < n)%nat -> (sigma i < n)%nat.
Proof.
  intros P Hi.
  assert (In (sigma i) (seq 0 n)) as Hin.
  { apply (Permutation_in _ P). apply in_map. apply in_seq. lia. }
  apply in_seq in Hin. lia.
Qed.

Lemma sum_upto_permutes (n : nat) (sigma : nat -> nat) (f : nat -> R) :
  permutes n sigma -> sum_upto n (fun i => f (sigma i)) = sum_upto n f.
Proof.
  intros P. unfold sum_upto.
  rewrite <- (map_map sigma f).
  apply Rsum_Permutation. now apply Permutation_map.
Qed.

(** ** Elementary facts about the activation functions *)

Lemma sigmoid_range (v : R) : 0 < torch.sigmoid v < 1.
Proof.
  unfold torch.sigmoid.
  pose proof (exp_pos (- v)) as He.
  split.
  - apply Rdiv_lt_0_compat; lra.
  - apply (Rmult_lt_reg_r (1 + exp (- v))); [lra |].
    unfold Rdiv. rewrite Rmult_assoc, Rinv_l; lra.
Qed.

Lemma sigmoid_0 : torch.sigmoid 0 = 1 / 2.
Proof. unfold torch.sigmoid. rewrite Ropp_0, exp_0. lra. Qed.

Lemma bce_logit_zero : F.bce_logit 1 0 0 = ln 2.
Proof.
  unfold F.bce_logit. rewrite sigmoid_0.
  replace (1 - 1 / 2) with (/ 2) by lra.
  rewrite ln_Rinv by lra. ring.
Qed.

Lemma valid_rate_true (p : R) : 0 <= p <= 1 -> F.valid_rate p = true.
Proof.
  intros [H0 H1]. unfold F.valid_rate.
  destruct (Rlt_dec p 0); [lra |]. destruct (Rlt_dec 1 p); [lra | reflexivity].
Qed.

Lemma bidx_lt (n i : nat) : (i < n)%nat -> torch.bidx n i = i.
Proof.
  intros H. unfold torch.bidx. destruct (Nat.eqb_spec n 1); lia.
Qed.

Lemma bdim_same (n : nat) : torch.bdim n n = Some n.
Proof. unfold torch.bdim. now rewrite Nat.eqb_refl. Qed.

(** ** The loss function *)

(** The KL summand on a mean and a log-deviation tensor of one shape. *)
Lemma KLD_same_shape (mu logvar : Tensor2) (n_nodes : nat) :
  rows2 mu = rows2 logvar -> cols2 mu = cols2 logvar ->
  (0 < rows2 mu)%nat -> (0 < n_nodes)%nat ->
  optimizer.KLD mu logvar n_nodes =
    Ok (Fin (-0.5 / INR n_nodes *
             (sum_upto (rows2 mu) (fun i =>
                sum_upto (cols2 mu) (fun j =>
                  1 + 2 * at2 logvar i j - at2 mu i j ^ 2 - exp (at2 logvar i j) ^ 2))
              / INR (rows2 mu)))).
Proof.
  intros Hr Hc Hn Hk.
  unfold optimizer.KLD.
  destruct n_nodes as [| k]; [lia |].
  unfold torch.sub, torch.ewise2; cbn -[INR pow sum_upto].
  rewrite <- Hr, <- Hc, !bdim_same. cbn -[INR pow sum_upto].
  rewrite !bdim_same. cbn -[INR pow sum_upto].
  unfold torch.mean1; cbn -[INR pow sum_upto].
  destruct (rows2 mu) as [| r] eqn:Er; [lia |].
  cbn -[INR pow sum_upto]. do 3 f_equal. f_equal.
  apply sum_upto_ext; intros i Hi. apply sum_upto_ext; intros j Hj.
  rewrite !(bidx_lt (S r) i) by assumption.
  rewrite !(bidx_lt (cols2 mu) j) by assumption.
  reflexivity.
Qed.

(** The reconstruction summand when the logits have the shape of the
    replicated labels. *)
Lemma bce_same_shape (preds : Tensor3) (labels : Tensor2) (c : nat) (pw : R) :
  dim0 preds = rows2 labels -> dim1 preds = cols2 labels -> dim2 preds = c ->
  (0 < rows2 labels * cols2 labels * c)%nat ->
  F.binary_cross_entropy_with_logits preds (torch.unsqueeze2_repeat labels c) pw =
    Ok (Fin (sum_upto (rows2 labels) (fun i =>
               sum_upto (cols2 labels) (fun j =>
                 sum_upto c (fun k => F.bce_logit pw (at3 preds i j k) (at2 labels i j))))
             / INR (rows2 labels * cols2 labels * c))).
Proof.
  intros H0 H1 H2 Hn.
  unfold F.binary_cross_entropy_with_logits, same_shape3; cbn -[INR sum_upto Nat.mul].
  rewrite H0, H1, H2, !Nat.eqb_refl. cbn -[INR sum_upto Nat.mul].
  unfold torch.mean3, numel3, torch.sum3; cbn -[INR sum_upto Nat.mul].
  destruct (rows2 labels * cols2 labels * c)%nat as [| m] eqn:E; [lia |].
  reflexivity.
Qed.

(** C2, as stated, fails.  On two nodes with mean 1 and [logvar] 0 the code
    gives 1/4 where the stated formula gives 1/2 (the code divides by the
    node count once more); on one node with mean 0 and [logvar] 1 the code
    gives [-(3 - e^2)/2] where the stated formula gives [-(2 - e)/2] (the code
    doubles [logvar] and squares its exponential). *)
Lemma KLD_differs_from_spec :
  optimizer.KLD (tensor2_of 1 [[1]; [1]]) (tensor2_of 1 [[0]; [0]]) 2
    <> Ok (KLD_spec (tensor2_of 1 [[1]; [1]]) (tensor2_of 1 [[0]; [0]]))
  /\ optimizer.KLD (tensor2_of 1 [[0]]) (tensor2_of 1 [[1]]) 1
    <> Ok (KLD_spec (tensor2_of 1 [[0]]) (tensor2_of 1 [[1]])).
Proof.
  split.
  - rewrite KLD_same_shape by (cbn; lia).
    unfold KLD_spec, torch.mean1, sum_upto; cbn -[exp].
    rewrite exp_0. intros H. injection H as H. lra.
  - rewrite KLD_same_shape by (cbn; lia).
    unfold KLD_spec, torch.mean1, sum_upto; cbn -[exp].
    intros H. injection H as H.
    pose proof (exp_ineq1 1 ltac:(lra)) as He.
    nra.
Qed.

(** C2, amended: on a mean and a [logvar] tensor of one shape with at least
    one row, and a positive node count, the KL term of [loss_function] is
    [-0.5 / n_nodes] times the mean over rows of the sum over latent
    dimensions of [1 + 2 * logvar - mu^2 - exp(logvar)^2], and
    [loss_function] returns the sum of it and the weighted reconstruction
    cost. *)
Theorem loss_function_KLD_closed_form
        (preds : Tensor3) (labels mu logvar : Tensor2) (n_nodes : nat) (norm pw : R) :
  rows2 mu = rows2 logvar -> cols2 mu = cols2 logvar ->
  (0 < rows2 mu)%nat -> (0 < n_nodes)%nat ->
  let kl := -0.5 / INR n_nodes *
            (sum_upto (rows2 mu) (fun i =>
               sum_upto (cols2 mu) (fun j =>
                 1 + 2 * at2 logvar i j - at2 mu i j ^ 2 - exp (at2 logvar i j) ^ 2))
             / INR (rows2 mu)) in
  optimizer.KLD mu logvar n_nodes = Ok (Fin kl)
  /\ optimizer.loss_function preds labels mu logvar n_nodes norm pw =
       (bce <- F.binary_cross_entropy_with_logits
                 preds (torch.unsqueeze2_repeat labels 10) pw ;;
        Ok (scalar_add (scalar_scale norm bce) (Fin kl))).
Proof.
  intros Hr Hc Hn Hk kl.
  pose proof (KLD_same_shape mu logvar n_nodes Hr Hc Hn Hk) as HK.
  fold kl in HK. split; [exact HK |].
  unfold optimizer.loss_function. rewrite HK.
  destruct (F.binary_cross_entropy_with_logits _ _ _); reflexivity.
Qed.

Lemma loss_function_KLD_closed_form_witness :
  optimizer.loss_function (torch.zeros3 2 2 10) (torch.zeros2 2 2)
      (tensor2_of 1 [[1]; [1]]) (tensor2_of 1 [[0]; [0]]) 2 1 1 =
    (bce <- F.binary_cross_entropy_with_logits
              (torch.zeros3 2 2 10)
              (torch.unsqueeze2_repeat (torch.zeros2 2 2) 10) 1 ;;
     Ok (scalar_add (scalar_scale 1 bce)
           (Fin (-0.5 / INR 2 *
                 (sum_upto 2 (fun i =>
                    sum_upto 1 (fun j =>
                      1 + 2 * at2 (tensor2_of 1 [[0]; [0]]) i j
                      - at2 (tensor2_of 1 [[1]; [1]]) i j ^ 2
                      - exp (at2 (tensor2_of 1 [[0]; [0]]) i j) ^ 2))
                  / INR 2))))).
Proof.
  apply (loss_function_KLD_closed_form
           (torch.zeros3 2 2 10) (torch.zeros2 2 2)
           (tensor2_of 1 [[1]; [1]]) (tensor2_of 1 [[0]; [0]]) 2 1 1);
    cbn; lia.
Defined.

(** C6: with [n_nodes = 4], [norm = 1], [pos_weight = 1], all-zero logits of
    shape 4 x 4 x 10, all-zero labels, and mean and log-variance tensors that
    are zero (four rows, any latent width), the reconstruction cost is [ln 2],
    the KL term is zero, and [loss_function] returns [ln 2 + 0]. *)
Theorem loss_function_zero_example (d : nat) :
  F.binary_cross_entropy_with_logits
      (torch.zeros3 4 4 10) (torch.unsqueeze2_repeat (torch.zeros2 4 4) 10) 1
    = Ok (Fin (ln 2))
  /\ optimizer.KLD (torch.zeros2 4 d) (torch.zeros2 4 d) 4 = Ok (Fin 0)
  /\ optimizer.loss_function (torch.zeros3 4 4 10) (torch.zeros2 4 4)
       (torch.zeros2 4 d) (torch.zeros2 4 d) 4 1 1 = Ok (Fin (ln 2 + 0)).
Proof.
  assert (Hb : F.binary_cross_entropy_with_logits
                 (torch.zeros3 4 4 10) (torch.unsqueeze2_repeat (torch.zeros2 4 4) 10) 1
               = Ok (Fin (ln 2))).
  { rewrite bce_same_shape by (cbn; lia).
    cbn [torch.zeros3 torch.zeros2 at3 at2 rows2 cols2].
    rewrite bce_logit_zero, !sum_upto_const.
    do 2 f_equal. replace (4 * 4 * 10)%nat with 160%nat by reflexivity.
    replace (INR 160) with 160 by (simpl; lra).
    replace (INR 10) with 10 by (simpl; lra).
    replace (INR 4) with 4 by (simpl; lra).
    field. }
  assert (Hk : optimizer.KLD (torch.zeros2 4 d) (torch.zeros2 4 d) 4 = Ok (Fin 0)).
  { rewrite KLD_same_shape by (cbn; lia).
    cbn [torch.zeros2 at2 rows2 cols2].
    do 2 f_equal.
    rewrite (sum_upto_zero 4).
    - unfold Rdiv. ring.
    - intros i _. apply sum_upto_zero. intros j _. rewrite exp_0. ring. }
  repeat split; [exact Hb | exact Hk |].
  unfold optimizer.loss_function. rewrite Hb, Hk.
  cbn [bind scalar_scale scalar_add]. do 2 f_equal. ring.
Qed.

(** C5: [loss_function] compares the logit of every channel [k < 10] of a
    node pair with the one binary label of that pair: when the logits have
    shape rows x cols x 10 the cost is the mean of the weighted cross-entropy
    over those triples, and logits with any other number of channels (such as
    a configured number of classes different from 10) are rejected with
    [ValueError].  The channel count 10 is fixed in the function, which has no
    access to the configuration. *)
Theorem loss_function_label_channels
        (preds : Tensor3) (labels mu logvar : Tensor2) (n_nodes : nat) (norm pw : R) :
  (dim0 (torch.unsqueeze2_repeat labels 10) = rows2 labels
   /\ dim1 (torch.unsqueeze2_repeat labels 10) = cols2 labels
   /\ dim2 (torch.unsqueeze2_repeat labels 10) = 10%nat
   /\ forall i j k, at3 (torch.unsqueeze2_repeat labels 10) i j k = at2 labels i j)
  /\ (dim0 preds = rows2 labels -> dim1 preds = cols2 labels -> dim2 preds = 10%nat ->
      (0 < rows2 labels * cols2 labels)%nat ->
      optimizer.loss_function preds labels mu logvar n_nodes norm pw =
        (kld <- optimizer.KLD mu logvar n_nodes ;;
         Ok (scalar_add
               (Fin (norm *
                     (sum_upto (rows2 labels) (fun i =>
                        sum_upto (cols2 labels) (fun j =>
                          sum_upto 10 (fun k =>
                            F.bce_logit pw (at3 preds i j k) (at2 labels i j))))
                      / INR (rows2 labels * cols2 labels * 10))))
               kld)))
  /\ (forall args : Args.t,
        dim2 preds = Args.num_classes args -> Args.num_classes args <> 10%nat ->
        optimizer.loss_function preds labels mu logvar n_nodes norm pw = Raise ValueError).
Proof.
  split; [| split].
  - repeat split.
  - intros H0 H1 H2 Hn.
    unfold optimizer.loss_function.
    rewrite bce_same_shape by (assumption || lia).
    reflexivity.
  - intros args Hc Hne.
    unfold optimizer.loss_function, F.binary_cross_entropy_with_logits, same_shape3.
    cbn [torch.unsqueeze2_repeat dim0 dim1 dim2].
    rewrite Hc.
    destruct (Nat.eqb_spec 10 (Args.num_classes args)) as [E | _]; [congruence |].
    rewrite andb_false_r. reflexivity.
Qed.

Lemma loss_function_label_channels_witness :
  optimizer.loss_function (torch.zeros3 2 2 10) (torch.zeros2 2 2)
      (torch.zeros2 2 1) (torch.zeros2 2 1) 2 1 1 =
    (kld <- optimizer.KLD (torch.zeros2 2 1) (torch.zeros2 2 1) 2 ;;
     Ok (scalar_add
           (Fin (1 *
                 (sum_upto 2 (fun i =>
                    sum_upto 2 (fun j =>
                      sum_upto 10 (fun k =>
                        F.bce_logit 1 (at3 (torch.zeros3 2 2 10) i j k)
                                      (at2 (torch.zeros2 2 2) i j))))
                  / INR (2 * 2 * 10))))
           kld))
  /\ optimizer.loss_function (torch.zeros3 2 2 3) (torch.zeros2 2 2)
       (torch.zeros2 2 1) (torch.zeros2 2 1) 2 1 1 = Raise ValueError.
Proof.
  split.
  - apply (loss_function_label_channels
             (torch.zeros3 2 2 10) (torch.zeros2 2 2)
             (torch.zeros2 2 1) (torch.zeros2 2 1) 2 1 1); cbn; lia.
  - apply (proj2 (proj2 (loss_function_label_channels
             (torch.zeros3 2 2 3) (torch.zeros2 2 2)
             (torch.zeros2 2 1) (torch.zeros2 2 1) 2 1 1))
             (Args.mk "InnerProductDecoder" 8 0 3)); cbn; lia.
Defined.

(** *** Renumbering the nodes *)

Lemma sum_upto_permutes_ext (n : nat) (sigma : nat -> nat) (f g : nat -> R) :
  permutes n sigma -> (forall i, (i < n)%nat -> f i = g (sigma i)) ->
  sum_upto n f = sum_upto n g.
Proof.
  intros P H. rewrite <- (sum_upto_permutes n sigma g P).
  now apply sum_upto_ext.
Qed.

Lemma bce_permute_nodes (n : nat) (sigma : nat -> nat)
      (preds : Tensor3) (labels : Tensor2) (c : nat) (pw : R) :
  permutes n sigma -> dim0 preds = n -> dim1 preds = n ->
  F.binary_cross_entropy_with_logits
      (permute_nodes3 sigma preds)
      (torch.unsqueeze2_repeat (permute_nodes2 sigma labels) c) pw
  = F.binary_cross_entropy_with_logits preds (torch.unsqueeze2_repeat labels c) pw.
Proof.
  intros P H0 H1.
  unfold F.binary_cross_entropy_with_logits, same_shape3.
  cbn [permute_nodes3 permute_nodes2 torch.unsqueeze2_repeat dim0 dim1 dim2 rows2 cols2 at3 at2].
  destruct (_ && _ && _)%bool; [| reflexivity].
  unfold torch.mean3, numel3, torch.sum3.
  cbn [dim0 dim1 dim2 at3].
  destruct (dim0 preds * dim1 preds * dim2 preds)%nat; [reflexivity |].
  do 3 f_equal. rewrite H0, H1.
  apply (sum_upto_permutes_ext n sigma); [assumption |]. intros i _.
  apply (sum_upto_permutes_ext n sigma); [assumption |]. intros j _.
  reflexivity.
Qed.

Lemma KLD_permute_rows (n : nat) (sigma : nat -> nat) (mu logvar : Tensor2) (n_nodes : nat) :
  permutes n sigma -> rows2 mu = n -> rows2 logvar = n ->
  optimizer.KLD (permute_rows sigma mu) (permute_rows sigma logvar) n_nodes
  = optimizer.KLD mu logvar n_nodes.
Proof.
  intros P Hm Hl.
  unfold optimizer.KLD. destruct n_nodes as [| k]; [reflexivity |].
  unfold torch.sub, torch.ewise2.
  cbn [permute_rows torch.radd torch.rmul torch.pow2 torch.texp torch.map2d
       rows2 cols2 at2].
  rewrite Hm, Hl, bdim_same.
  destruct (torch.bdim (cols2 logvar) (cols2 mu)) as [c1 |]; [| reflexivity].
  cbn [bind rows2 cols2 at2]. rewrite bdim_same.
  destruct (torch.bdim c1 (cols2 logvar)) as [c2 |]; [| reflexivity].
  cbn [bind]. unfold torch.mean1, torch.sum_dim1. cbn [len1 at1 rows2 cols2 at2].
  destruct n as [| m] eqn:En; [reflexivity |]. rewrite <- En in *.
  do 4 f_equal.
  apply (sum_upto_permutes_ext n sigma); [assumption |]. intros i Hi.
  apply sum_upto_ext. intros j _.
  pose proof (permutes_lt n sigma i P Hi) as Hs.
  rewrite !(bidx_lt n i Hi), !(bidx_lt n (sigma i) Hs).
  reflexivity.
Qed.

Lemma f32_loss_function_permute (sigma : nat -> nat)
      (exp : f32.float -> f32.float)
      (bce : f32.Tensor3 -> f32.Tensor3 -> f32.float -> f32.float)
      (preds : f32.Tensor3) (labels mu logvar : f32.Tensor2)
      (n_nodes : nat) (norm pw : f32.py.float) :
  same_kind
    (f32.optimizer.loss_function exp bce
       (f32.permute_nodes3 sigma preds) (f32.permute_nodes2 sigma labels)
       (f32.permute_rows sigma mu) (f32.permute_rows sigma logvar) n_nodes norm pw)
    (f32.optimizer.loss_function exp bce preds labels mu logvar n_nodes norm pw).
Proof.
  unfold f32.optimizer.loss_function, f32.same_shape3.
  cbn [f32.permute_nodes3 f32.permute_nodes2 f32.torch.unsqueeze2_repeat
       f32.dim0 f32.dim1 f32.dim2 f32.rows2 f32.cols2].
  destruct (_ && _ && _)%bool; [| reflexivity].
  cbn [bind]. unfold f32.optimizer.KLD.
  destruct n_nodes as [| k]; [reflexivity |].
  unfold f32.torch.ewise2.
  cbn [f32.permute_rows f32.torch.map2d f32.rows2 f32.cols2].
  destruct (torch.bdim (f32.rows2 logvar) (f32.rows2 mu)) as [r1 |]; [| reflexivity].
  destruct (torch.bdim (f32.cols2 logvar) (f32.cols2 mu)) as [c1 |]; [| reflexivity].
  cbn [bind f32.rows2 f32.cols2].
  destruct (torch.bdim r1 (f32.rows2 logvar)) as [r2 |]; [| reflexivity].
  destruct (torch.bdim c1 (f32.cols2 logvar)) as [c2 |]; reflexivity.
Qed.

(** C9, as stated, fails in the arithmetic of the program.  Three nodes,
    one latent dimension, means 4096, 1 and 1, [logvar] zero, logits and
    labels zero, [norm = 0], [pos_weight = 1]: the rows of the KL term sum to
    [-2^24], [-1] and [-1], and their binary32 sum is [-16777216] in this
    order and [-16777218] with the first and the last node exchanged, so
    [loss_function] returns 932067.625 in one numbering of the nodes and
    932067.6875 in the other.  Of the tensor library this takes that
    [exp(0) = 1] and that the cross-entropy of zero logits against zero
    labels is a finite number. *)
Lemma loss_function_depends_on_node_order :
  permutes 3 swap02
  /\ forall (exp : f32.float -> f32.float)
            (bce : f32.Tensor3 -> f32.Tensor3 -> f32.float -> f32.float),
       exp f32.zero = f32.one ->
       f32.is_finite (bce (f32.torch.zeros3 3 3 10) (f32.torch.zeros3 3 3 10) f32.one) = true ->
       exists v v',
         f32.optimizer.loss_function exp bce
             (f32.torch.zeros3 3 3 10) (f32.torch.zeros2 3 3)
             (f32.tensor2_of 1 [[f32.of_Z 4096]; [f32.of_Z 1]; [f32.of_Z 1]])
             (f32.torch.zeros2 3 1) 3 (f32.py.of_Z 0) (f32.py.of_Z 1) = Ok v
         /\ f32.optimizer.loss_function exp bce
             (f32.permute_nodes3 swap02 (f32.torch.zeros3 3 3 10))
             (f32.permute_nodes2 swap02 (f32.torch.zeros2 3 3))
             (f32.permute_rows swap02
                (f32.tensor2_of 1 [[f32.of_Z 4096]; [f32.of_Z 1]; [f32.of_Z 1]]))
             (f32.permute_rows swap02 (f32.torch.zeros2 3 1))
             3 (f32.py.of_Z 0) (f32.py.of_Z 1) = Ok v'
         /\ v = S754_finite false 14913082 (-4)
         /\ v' = S754_finite false 14913083 (-4)
         /\ v <> v'.
Proof.
  split; [unfold permutes; cbn; apply Permutation_rev with (l := [2; 1; 0]%nat) |].
  intros exp bce Hexp Hbce.
  eexists. eexists. split; [reflexivity |]. split; [reflexivity |].
  cbv beta iota zeta delta
      -[f32.mul f32.add f32.sub f32.div f32.of_Z f32.of_py f32.py.of_Z f32.py.div
        f32.zero f32.one] in Hbce |- *.
  rewrite !Hexp.
  change (f32.of_py (f32.py.of_Z 1)) with f32.one.
  destruct (bce _ _ _) as [s | s | | s m e];
    try discriminate Hbce; destruct s;
    (split; [vm_compute; reflexivity |]);
    (split; [vm_compute; reflexivity |]);
    vm_compute; discriminate.
Qed.

(** C9, amended: in exact arithmetic, renumbering the nodes by a
    permutation, applied to the rows and columns of the logits and of the
    labels and to the rows of the mean and log-variance tensors, leaves the
    value of [loss_function] unchanged; in the binary32 arithmetic of the
    program the renumbered call raises the same exception or returns as
    well, but its value need not be the same, since the sums over the nodes
    round differently in another order. *)
Theorem loss_function_permutation_invariant_up_to_rounding
        (n : nat) (sigma : nat -> nat)
        (preds : Tensor3) (labels mu logvar : Tensor2) (n_nodes : nat) (norm pw : R) :
  permutes n sigma ->
  dim0 preds = n -> dim1 preds = n ->
  rows2 labels = n -> cols2 labels = n ->
  rows2 mu = n -> rows2 logvar = n ->
  optimizer.loss_function (permute_nodes3 sigma preds) (permute_nodes2 sigma labels)
      (permute_rows sigma mu) (permute_rows sigma logvar) n_nodes norm pw
  = optimizer.loss_function preds labels mu logvar n_nodes norm pw
  /\ forall (exp : f32.float -> f32.float)
            (bce : f32.Tensor3 -> f32.Tensor3 -> f32.float -> f32.float)
            (preds' : f32.Tensor3) (labels' mu' logvar' : f32.Tensor2)
            (norm' pw' : f32.py.float),
       same_kind
         (f32.optimizer.loss_function exp bce
            (f32.permute_nodes3 sigma preds') (f32.permute_nodes2 sigma labels')
            (f32.permute_rows sigma mu') (f32.permute_rows sigma logvar')
            n_nodes norm' pw')
         (f32.optimizer.loss_function exp bce preds' labels' mu' logvar' n_nodes norm' pw').
Proof.
  intros P H0 H1 _ _ Hm Hl. split.
  - unfold optimizer.loss_function.
    rewrite (bce_permute_nodes n sigma preds labels 10 pw P H0 H1).
    rewrite (KLD_permute_rows n sigma mu logvar n_nodes P Hm Hl).
    reflexivity.
  - intros. apply f32_loss_function_permute.
Qed.

Lemma loss_function_permutation_invariant_up_to_rounding_witness :
  optimizer.loss_function
      (permute_nodes3 exchange (mkT3 2 2 10 (fun i j k => INR (i + 2 * j + k))))
      (permute_nodes2 exchange (tensor2_of 2 [[1; 0]; [1; 1]]))
      (permute_rows exchange (tensor2_of 1 [[1]; [2]]))
      (permute_rows exchange (tensor2_of 1 [[0]; [1]])) 2 1 1
  = optimizer.loss_function
      (mkT3 2 2 10 (fun i j k => INR (i + 2 * j + k)))
      (tensor2_of 2 [[1; 0]; [1; 1]])
      (tensor2_of 1 [[1]; [2]]) (tensor2_of 1 [[0]; [1]]) 2 1 1.
Proof.
  apply (loss_function_permutation_invariant_up_to_rounding 2 exchange);
    try reflexivity.
  unfold permutes. cbn. apply perm_swap.
Defined.

(** ** The DistMult decoder *)

Lemma bidx_bdim (a b r i : nat) :
  torch.bdim a b = Some r -> torch.bidx a (torch.bidx r i) = torch.bidx a i.
Proof.
  unfold torch.bdim, torch.bidx.
  destruct (Nat.eqb_spec a b); [intros [= <-]; destruct (a =? 1)%nat; reflexivity |].
  destruct (Nat.eqb_spec a 1); [reflexivity |].
  destruct (Nat.eqb_spec b 1); [| discriminate].
  intros [= <-]. destruct (Nat.eqb_spec a 1); [contradiction | reflexivity].
Qed.

Lemma DistMult_swap (self : DistMultDecoder.t) (z : Tensor2)
      (edge_index : LongTensor2) (edge_type : LongTensor1) :
  same_result1 (DistMultDecoder.forward self z (swap_endpoints edge_index) edge_type)
               (DistMultDecoder.forward self z edge_index edge_type).
Proof.
  unfold DistMultDecoder.forward, torch.long_row.
  cbn [swap_endpoints lrows lcols lat2].
  destruct (0 <? lrows edge_index)%nat eqn:E0; [| reflexivity].
  destruct (1 <? lrows edge_index)%nat eqn:E1.
  - cbn [bind]. unfold torch.index_rows at 1 2 4 5. cbn [llen lat1].
    destruct (torch.all_in_range (rows2 z) {| llen := lcols edge_index; lat1 := fun e => lat2 edge_index 1 e |});
      destruct (torch.all_in_range (rows2 z) {| llen := lcols edge_index; lat1 := fun e => lat2 edge_index 0 e |});
      cbn [bind]; try reflexivity.
    destruct (torch.index_rows (DistMultDecoder.rel_emb self) edge_type) as [rel | e];
      [| reflexivity].
    cbn [bind]. unfold torch.mul, torch.ewise2. cbn [rows2 cols2 at2].
    destruct (torch.bdim (lcols edge_index) (rows2 rel)) as [r1 |] eqn:Br; [| reflexivity].
    destruct (torch.bdim (cols2 z) (cols2 rel)) as [c1 |] eqn:Bc; [| reflexivity].
    cbn [bind rows2 cols2 at2].
    destruct (torch.bdim r1 (lcols edge_index)) as [r2 |]; [| reflexivity].
    destruct (torch.bdim c1 (cols2 z)) as [c2 |]; [| reflexivity].
    cbn [bind same_result1 torch.sum_dim1 len1 at1 rows2 cols2 at2].
    split; [reflexivity |]. intros e _.
    apply sum_upto_ext. intros j _.
    rewrite !(bidx_bdim _ _ _ _ Br), !(bidx_bdim _ _ _ _ Bc). ring.
  - cbn [bind]. unfold torch.index_rows. cbn [llen lat1].
    destruct (torch.all_in_range _ _); destruct (torch.all_in_range _ _);
      reflexivity.
Qed.

Lemma f32_DistMult_swap (self : f32.DistMultDecoder.t) (z : f32.Tensor2)
      (edge_index : LongTensor2) (edge_type : LongTensor1) :
  same_kind1 (f32.DistMultDecoder.forward self z (swap_endpoints edge_index) edge_type)
             (f32.DistMultDecoder.forward self z edge_index edge_type).
Proof.
  unfold f32.DistMultDecoder.forward, torch.long_row.
  cbn [swap_endpoints lrows lcols lat2].
  destruct (0 <? lrows edge_index)%nat eqn:E0; [| reflexivity].
  destruct (1 <? lrows edge_index)%nat eqn:E1.
  - cbn [bind]. unfold f32.torch.index_rows at 1 2 4 5. cbn [llen lat1].
    destruct (torch.all_in_range (f32.rows2 z) {| llen := lcols edge_index; lat1 := fun e => lat2 edge_index 1 e |});
      destruct (torch.all_in_range (f32.rows2 z) {| llen := lcols edge_index; lat1 := fun e => lat2 edge_index 0 e |});
      cbn [bind]; try reflexivity.
    destruct (f32.torch.index_rows (f32.DistMultDecoder.rel_emb self) edge_type) as [rel | e];
      [| reflexivity].
    cbn [bind]. unfold f32.torch.ewise2. cbn [f32.rows2 f32.cols2 f32.at2].
    destruct (torch.bdim (lcols edge_index) (f32.rows2 rel)) as [r1 |]; [| reflexivity].
    destruct (torch.bdim (f32.cols2 z) (f32.cols2 rel)) as [c1 |]; [| reflexivity].
    cbn [bind f32.rows2 f32.cols2 f32.at2].
    destruct (torch.bdim r1 (lcols edge_index)) as [r2 |]; [| reflexivity].
    destruct (torch.bdim c1 (f32.cols2 z)) as [c2 |]; reflexivity.
  - cbn [bind]. unfold f32.torch.index_rows. cbn [llen lat1].
    destruct (torch.all_in_range _ _); destruct (torch.all_in_range _ _);
      reflexivity.
Qed.

(** C4, as stated, fails: whether the scores of [(a, b)] and [(b, a)] agree
    has nothing to do with a symmetry of the relation embedding.  Computed
    in binary32 as the program computes them: with node embeddings [[1; 2]]
    and [[3; 4]] and the relation embedding [[5; 7]], whose entries differ,
    both directions score [1*5*3 + 2*7*4 = 71]; with node embeddings
    [[4097]] and [[3]] and the relation embedding [[4097]], which has a
    single entry, the edge [(0, 1)] scores 50356224 and the edge [(1, 0)]
    scores 50356228, because [(4097 * 4097) * 3] and [(3 * 4097) * 4097]
    round differently. *)
Lemma DistMult_symmetry_unrelated_to_relation :
  (exists s s',
      f32.DistMultDecoder.forward
          (f32.DistMultDecoder.mk (f32.tensor2_of 2 [[f32.of_Z 5; f32.of_Z 7]]))
          (f32.tensor2_of 2 [[f32.of_Z 1; f32.of_Z 2]; [f32.of_Z 3; f32.of_Z 4]])
          (long2_of 1 [[0]; [1]]%Z) (long1_of [0%Z]) = Ok s
      /\ f32.DistMultDecoder.forward
          (f32.DistMultDecoder.mk (f32.tensor2_of 2 [[f32.of_Z 5; f32.of_Z 7]]))
          (f32.tensor2_of 2 [[f32.of_Z 1; f32.of_Z 2]; [f32.of_Z 3; f32.of_Z 4]])
          (swap_endpoints (long2_of 1 [[0]; [1]]%Z)) (long1_of [0%Z]) = Ok s'
      /\ f32.len1 s = 1%nat /\ f32.len1 s' = 1%nat
      /\ f32.at1 s 0 = f32.of_Z 71 /\ f32.at1 s' 0 = f32.of_Z 71)
  /\ (exists s s',
      f32.DistMultDecoder.forward
          (f32.DistMultDecoder.mk (f32.tensor2_of 1 [[f32.of_Z 4097]]))
          (f32.tensor2_of 1 [[f32.of_Z 4097]; [f32.of_Z 3]])
          (long2_of 1 [[0]; [1]]%Z) (long1_of [0%Z]) = Ok s
      /\ f32.DistMultDecoder.forward
          (f32.DistMultDecoder.mk (f32.tensor2_of 1 [[f32.of_Z 4097]]))
          (f32.tensor2_of 1 [[f32.of_Z 4097]; [f32.of_Z 3]])
          (swap_endpoints (long2_of 1 [[0]; [1]]%Z)) (long1_of [0%Z]) = Ok s'
      /\ f32.len1 s = 1%nat /\ f32.len1 s' = 1%nat
      /\ f32.at1 s 0 = f32.of_Z 50356224 /\ f32.at1 s' 0 = f32.of_Z 50356228
      /\ f32.at1 s 0 <> f32.at1 s' 0).
Proof.
  split.
  - eexists. eexists. split; [reflexivity |]. split; [reflexivity |].
    repeat split; vm_compute; reflexivity.
  - eexists. eexists. split; [reflexivity |]. split; [reflexivity |].
    repeat split; try (vm_compute; reflexivity).
    vm_compute. discriminate.
Qed.

(** C4, amended: in exact arithmetic, scoring the edges with source and
    destination exchanged has the same outcome as scoring them as given,
    for every embedding matrix, relation table, edge list and edge types:
    the DistMult score of [(a, b)] equals that of [(b, a)] under the same
    relation, whatever the relation embedding.  In the binary32 arithmetic
    of the program the two calls raise the same exception or return score
    vectors of one length; their entries need not agree, since
    [(z_src * rel) * z_dst] and [(z_dst * rel) * z_src] round differently. *)
Theorem DistMult_symmetric_up_to_rounding :
  (forall (self : DistMultDecoder.t) (z : Tensor2)
          (edge_index : LongTensor2) (edge_type : LongTensor1),
      same_result1 (DistMultDecoder.forward self z (swap_endpoints edge_index) edge_type)
                   (DistMultDecoder.forward self z edge_index edge_type))
  /\ (forall (self : f32.DistMultDecoder.t) (z : f32.Tensor2)
             (edge_index : LongTensor2) (edge_type : LongTensor1),
      same_kind1 (f32.DistMultDecoder.forward self z (swap_endpoints edge_index) edge_type)
                 (f32.DistMultDecoder.forward self z edge_index edge_type)).
Proof. split; [exact DistMult_swap | exact f32_DistMult_swap]. Qed.

(** ** The heterogeneous DistMult decoder *)

Lemma index_rows_shape (a : Tensor2) (idx : LongTensor1) (out : Tensor2) :
  torch.index_rows a idx = Ok out -> rows2 out = llen idx /\ cols2 out = cols2 a.
Proof.
  unfold torch.index_rows. destruct (torch.all_in_range _ _); [| discriminate].
  intros [= <-]. split; reflexivity.
Qed.

Lemma long_row_len (a : LongTensor2) (r : nat) (out : LongTensor1) :
  torch.long_row a r = Ok out -> llen out = lcols a.
Proof.
  unfold torch.long_row. destruct (_ <? _)%nat; [| discriminate].
  intros [= <-]. reflexivity.
Qed.

Lemma mul_same_shape (a b out : Tensor2) :
  rows2 a = rows2 b -> cols2 a = cols2 b -> torch.mul a b = Ok out ->
  rows2 out = rows2 a /\ cols2 out = cols2 a.
Proof.
  intros Hr Hc. unfold torch.mul, torch.ewise2.
  rewrite <- Hr, <- Hc, !bdim_same. intros [= <-]. split; reflexivity.
Qed.

Lemma mm_shape (a b out : Tensor2) :
  torch.mm a b = Ok out -> rows2 out = rows2 a /\ cols2 out = cols2 b.
Proof.
  unfold torch.mm. destruct (_ =? _)%nat; [| discriminate].
  intros [= <-]. split; reflexivity.
Qed.

Lemma bind_Ok {A B : Type} (m : result A) (k : A -> result B) (b : B) :
  bind m k = Ok b -> exists a, m = Ok a /\ k a = Ok b.
Proof. destruct m as [a | e]; [| discriminate]. intros H. now exists a. Qed.

Lemma scores_shape (self : HetDistMultDecoder.t) (z : Tensor2)
      (edge_index : LongTensor2) (out : Tensor2) :
  HetDistMultDecoder.scores self z edge_index = Ok out ->
  rows2 out = lcols edge_index /\ cols2 out = cols2 (HetDistMultDecoder.rel_emb self).
Proof.
  unfold HetDistMultDecoder.scores. intros H.
  apply bind_Ok in H as (src & Hsrc & H).
  apply bind_Ok in H as (z_src & Hzs & H).
  apply bind_Ok in H as (dst & Hdst & H).
  apply bind_Ok in H as (z_dst & Hzd & H).
  apply bind_Ok in H as (zz & Hzz & H).
  apply index_rows_shape in Hzs as [Rs Cs], Hzd as [Rd Cd].
  apply long_row_len in Hsrc, Hdst.
  apply mul_same_shape in Hzz as [Rz Cz]; [| congruence | congruence].
  apply mm_shape in H as [Ro Co].
  split; congruence.
Qed.

(** C8: the matrix [HetDistMultDecoder.forward] returns has
    [num_relations + 1] columns and one row per positive edge, followed by
    one row per negative edge when the batch carries negative edges. *)
Theorem HetDistMult_forward_shape
        (num_relations hidden_channels : nat) (ini : initializer)
        (z : Tensor2) (batch : Data.t) (out : Tensor2) :
  HetDistMultDecoder.forward
      (HetDistMultDecoder.__init__ num_relations hidden_channels ini) z batch = Ok out ->
  cols2 out = (num_relations + 1)%nat /\ rows2 out = scored_edges batch.
Proof.
  unfold HetDistMultDecoder.forward, scored_edges. intros H.
  apply bind_Ok in H as (pos_out & Hpos & H).
  apply scores_shape in Hpos as [Rp Cp]. cbn in Cp.
  destruct (Data.neg_edge_index batch) as [neg |].
  - apply bind_Ok in H as (neg_out & Hneg & H).
    apply scores_shape in Hneg as [Rn Cn]. cbn in Cn.
    unfold torch.cat in H. destruct (_ =? _)%nat; [| discriminate].
    injection H as <-. cbn. split; congruence.
  - injection H as <-. split; [congruence | lia].
Qed.

Lemma all_in_range_true (n : nat) (idx : LongTensor1) :
  (forall e, (e < llen idx)%nat ->
             (- Z.of_nat n <= lat1 idx e < Z.of_nat n)%Z) ->
  torch.all_in_range n idx = true.
Proof.
  intros H. unfold torch.all_in_range. apply forallb_forall. intros e He.
  apply in_seq in He. specialize (H e ltac:(lia)).
  unfold torch.wrap_index.
  destruct ((0 <=? lat1 idx e) && (lat1 idx e <? Z.of_nat n))%Z eqn:E1; [reflexivity |].
  destruct ((- Z.of_nat n <=? lat1 idx e) && (lat1 idx e <? 0))%Z eqn:E2; [reflexivity |].
  exfalso.
  apply andb_false_iff in E1, E2.
  destruct E1 as [E1 | E1], E2 as [E2 | E2]; lia.
Qed.

Lemma scores_returns (self : HetDistMultDecoder.t) (z : Tensor2) (edge_index : LongTensor2) :
  edges_of (rows2 z) edge_index ->
  cols2 z = rows2 (HetDistMultDecoder.rel_emb self) ->
  exists out, HetDistMultDecoder.scores self z edge_index = Ok out.
Proof.
  intros [Hr Hi] Hc.
  unfold HetDistMultDecoder.scores, torch.long_row.
  destruct (Nat.ltb_spec 0 (lrows edge_index)); [| lia].
  destruct (Nat.ltb_spec 1 (lrows edge_index)); [| lia].
  cbn [bind]. unfold torch.index_rows.
  rewrite !all_in_range_true by (cbn [llen lat1]; intros; apply Hi; lia).
  cbn [bind]. unfold torch.mul, torch.ewise2. cbn [rows2 cols2 llen].
  rewrite !bdim_same. cbn [bind]. unfold torch.mm. cbn [rows2 cols2].
  rewrite Hc, Nat.eqb_refl. eexists. reflexivity.
Qed.

(** On a batch whose edge lists name nodes of [z], and embeddings of the
    decoder's width, the forward pass of the decoder returns. *)
Lemma HetDistMult_forward_returns
      (num_relations : nat) (ini : initializer) (z : Tensor2) (batch : Data.t) :
  edges_of (rows2 z) (Data.pos_edge_index batch) ->
  match Data.neg_edge_index batch with
  | Some neg => edges_of (rows2 z) neg
  | None => True
  end ->
  exists out,
    HetDistMultDecoder.forward
      (HetDistMultDecoder.__init__ num_relations (cols2 z) ini) z batch = Ok out.
Proof.
  intros Hp Hn. unfold HetDistMultDecoder.forward.
  destruct (scores_returns (HetDistMultDecoder.__init__ num_relations (cols2 z) ini)
              z (Data.pos_edge_index batch) Hp eq_refl) as [out Ho].
  rewrite Ho. cbn [bind].
  destruct (Data.neg_edge_index batch) as [neg |]; [| now exists out].
  destruct (scores_returns (HetDistMultDecoder.__init__ num_relations (cols2 z) ini)
              z neg Hn eq_refl) as [nout Hno].
  rewrite Hno. cbn [bind].
  apply scores_shape in Ho as [_ Co], Hno as [_ Cn].
  unfold torch.cat. rewrite Co, Cn, Nat.eqb_refl. eexists. reflexivity.
Qed.

Lemma HetDistMult_forward_shape_witness :
  exists out,
    HetDistMultDecoder.forward
      (HetDistMultDecoder.__init__ 2 2 (constant_init 1 0))
      (tensor2_of 2 [[1; 2]; [3; 4]])
      (Data.mk None 2 (long1_of [0; 1]%Z) (long2_of 1 [[0]; [1]]%Z)
               (Some (long2_of 2 [[1; 0]; [0; 0]]%Z))) = Ok out
    /\ cols2 out = 3%nat /\ rows2 out = 3%nat.
Proof.
  eexists. split; [reflexivity |].
  apply (HetDistMult_forward_shape 2 2 (constant_init 1 0)
           (tensor2_of 2 [[1; 2]; [3; 4]])
           (Data.mk None 2 (long1_of [0; 1]%Z) (long2_of 1 [[0]; [1]]%Z)
                    (Some (long2_of 2 [[1; 0]; [0; 0]]%Z)))).
  reflexivity.
Defined.

(** ** The inner-product decoder and its classifier *)

Lemma dropout2_returns (a : Tensor2) (p : R) (training : bool) (g : rng) :
  0 <= p <= 1 ->
  exists out g', F.dropout2 a p training g = Ok (out, g')
                 /\ rows2 out = rows2 a /\ cols2 out = cols2 a.
Proof.
  intros Hp. unfold F.dropout2. rewrite (valid_rate_true p Hp).
  destruct training; [| eexists; eexists; repeat split].
  destruct (Req_dec_T p 0); [eexists; eexists; repeat split |].
  destruct (numel2 a =? 0)%nat; [eexists; eexists; repeat split |].
  destruct (Req_dec_T p 1); eexists; eexists; repeat split.
Qed.

Lemma dropout3_returns (a : Tensor3) (p : R) (training : bool) (g : rng) :
  0 <= p <= 1 ->
  exists out g', F.dropout3 a p training g = Ok (out, g')
                 /\ dim0 out = dim0 a /\ dim1 out = dim1 a /\ dim2 out = dim2 a.
Proof.
  intros Hp. unfold F.dropout3. rewrite (valid_rate_true p Hp).
  destruct training; [| eexists; eexists; repeat split].
  destruct (Req_dec_T p 0); [eexists; eexists; repeat split |].
  destruct (numel3 a =? 0)%nat; [eexists; eexists; repeat split |].
  destruct (Req_dec_T p 1); eexists; eexists; repeat split.
Qed.

(** With a rate strictly between 0 and 1, on a tensor that has elements,
    dropout in training mode masks every element with a draw of its own. *)
Lemma dropout3_mask (a : Tensor3) (p : R) (g : rng) :
  0 < p < 1 -> numel3 a <> 0%nat ->
  F.dropout3 a p true g =
    Ok (mkT3 (dim0 a) (dim1 a) (dim2 a)
          (fun i j k => F.drop p (g ((i * dim1 a + j) * dim2 a + k)%nat) (at3 a i j k)),
        advance (numel3 a) g).
Proof.
  intros Hp Hn. unfold F.dropout3. rewrite (valid_rate_true p) by lra.
  destruct (Req_dec_T p 0); [lra |].
  destruct (Nat.eqb_spec (numel3 a) 0); [contradiction |].
  destruct (Req_dec_T p 1); [lra | reflexivity].
Qed.

(** At rate zero dropout returns its input and draws nothing, in training
    mode too. *)
Lemma dropout3_rate_zero (a : Tensor3) (training : bool) (g : rng) :
  F.dropout3 a 0 training g = Ok (a, g).
Proof.
  unfold F.dropout3. rewrite (valid_rate_true 0) by lra.
  destruct training; [| reflexivity].
  destruct (Req_dec_T 0 0); [reflexivity | contradiction].
Qed.

Lemma dropout2_rate_zero (a : Tensor2) (training : bool) (g : rng) :
  F.dropout2 a 0 training g = Ok (a, g).
Proof.
  unfold F.dropout2. rewrite (valid_rate_true 0) by lra.
  destruct training; [| reflexivity].
  destruct (Req_dec_T 0 0); [reflexivity | contradiction].
Qed.

(** Outside training the dropout of the functional interface is the
    identity and draws nothing. *)
Lemma dropout2_eval (a : Tensor2) (p : R) (g : rng) :
  0 <= p <= 1 -> F.dropout2 a p false g = Ok (a, g).
Proof. intros Hp. unfold F.dropout2. now rewrite (valid_rate_true p Hp). Qed.

(** A classifier as its constructor builds it runs on any input, whatever
    its mode. *)
Lemma LinearClassifier_forward_returns
      (args : Args.t) (ini : initializer) (mode : bool) (z : Tensor3) (g : rng) :
  0 <= Args.dropout args <= 1 ->
  let self := if mode then LinearClassifier.__init__ args ini
              else LinearClassifier.eval (LinearClassifier.__init__ args ini) in
  exists out g', LinearClassifier.forward self z g = Ok (out, g').
Proof.
  intros Hp self.
  assert (Hl : LinearClassifier.layers self
               = LinearClassifier.layers (LinearClassifier.__init__ args ini)
               /\ LinearClassifier.dropout self = Args.dropout args)
    by (destruct mode; split; reflexivity).
  destruct Hl as [Hl Hd].
  unfold LinearClassifier.forward. rewrite Hl, Hd.
  cbn [LinearClassifier.__init__ LinearClassifier.layers removelast
       LinearClassifier.hidden_layers].
  unfold Linear.forward3 at 1, Linear.width. cbn [Linear.in_channels bind].
  destruct (dropout3_returns
              (torch.map3d F.relu
                 (mkT3 (dim0 z) (dim1 z) (Args.hidden_dim args)
                    (fun i j o =>
                       Linear.apply
                         (Linear.mk None (Args.hidden_dim args) (weight_of ini 0) (bias_of ini 0))
                         (dim2 z) (at3 z i j) o)))
              (Args.dropout args) true g Hp) as (z1 & g1 & E1 & _ & _ & D1).
  cbn [Linear.out_channels] in E1 |- *. rewrite E1. cbn [bind].
  unfold Linear.forward3 at 1, Linear.width. cbn [Linear.in_channels Linear.out_channels].
  rewrite D1. cbn [torch.map3d dim2]. rewrite Nat.eqb_refl. cbn [bind].
  match goal with
  | |- context [F.dropout3 ?t _ true g1] =>
      destruct (dropout3_returns t (Args.dropout args) true g1 Hp)
        as (z2 & g2 & E2 & _ & _ & D2)
  end.
  rewrite E2. cbn [bind py_last rev app].
  unfold Linear.forward3, Linear.width. cbn [Linear.in_channels Linear.out_channels].
  rewrite D2. cbn [torch.map3d dim2]. rewrite Nat.eqb_refl. cbn [bind].
  eexists. eexists. reflexivity.
Qed.

(** An inner-product decoder as its constructor builds it returns on every
    embedding matrix, in training and in evaluation mode. *)
Lemma InnerProductDecoder_forward_returns
      (args : Args.t) (ini : initializer) (mode : bool) (z : Tensor2) (g : rng) :
  0 <= Args.dropout args <= 1 ->
  let self := if mode then InnerProductDecoder.__init__ args ini
              else InnerProductDecoder.eval (InnerProductDecoder.__init__ args ini) in
  exists out g', InnerProductDecoder.forward self z g = Ok (out, g').
Proof.
  intros Hp self.
  unfold InnerProductDecoder.forward.
  assert (Hd : InnerProductDecoder.dropout self = Args.dropout args)
    by (destruct mode; reflexivity).
  rewrite Hd.
  destruct (dropout2_returns z (Args.dropout args) (InnerProductDecoder.training self) g Hp)
    as (z1 & g1 & E1 & _ & _).
  rewrite E1. cbn [bind].
  unfold torch.mm. cbn [torch.t rows2 cols2]. rewrite Nat.eqb_refl. cbn [bind].
  match goal with
  | |- context [LinearClassifier.forward _ ?a g1] =>
      destruct (LinearClassifier_forward_returns args ini mode a g1 Hp) as (o & g2 & E2)
  end.
  replace (InnerProductDecoder.classifier self)
    with (if mode then LinearClassifier.__init__ args ini
          else LinearClassifier.eval (LinearClassifier.__init__ args ini))
    by (destruct mode; reflexivity).
  rewrite E2. cbn [bind]. eexists. eexists. reflexivity.
Qed.

Lemma hard_sigmoid_range (x : f32.float) : unit_or_nan (hard_sigmoid x) = true.
Proof.
  unfold hard_sigmoid.
  set (y := f32.add (f32.div x (f32.of_Z 4)) (f32.of_py half)).
  destruct (f32.is_nan y) eqn:N; [unfold unit_or_nan; now rewrite N |].
  destruct (SFltb y f32.zero); [reflexivity |].
  destruct (SFltb f32.one y); [reflexivity |].
  destruct (SFleb f32.zero y && SFleb y f32.one) eqn:C; [| reflexivity].
  unfold unit_or_nan. rewrite C. apply orb_true_r.
Qed.

(** Nan goes through the arithmetic. *)
Lemma f32_mul_nan (y : f32.float) : f32.mul S754_nan y = S754_nan.
Proof. reflexivity. Qed.

Lemma f32_add_nan (y : f32.float) : f32.add S754_nan y = S754_nan.
Proof. reflexivity. Qed.

Lemma f32_add_nan_r (x : f32.float) : f32.add x S754_nan = S754_nan.
Proof. destruct x; reflexivity. Qed.

Lemma f32_relu_nan : f32.F.relu S754_nan = S754_nan.
Proof. reflexivity. Qed.

(** C7, as stated, fails in the arithmetic of the program.  The embedding
    matrix with rows [[1e20; 1e20]] and [[1e20; -1e20]] has finite entries,
    but the inner product of its two rows is [inf - inf], which is nan, and
    nan goes through the sigmoid, the layers of the classifier, the ReLU and
    the dropout mask: on a decoder of one hidden unit and one class, in
    evaluation mode, the entry for the node pair [(0, 1)] is nan whatever
    the draws.  Of the tensor library this takes that the sigmoid of nan is
    nan. *)
Lemma InnerProductDecoder_forward_nan :
  exists z : f32.Tensor2,
    (forall i j, f32.is_finite (f32.at2 z i j) = true)
    /\ forall (sigmoid : f32.float -> f32.float) (g : f32.rng),
         sigmoid S754_nan = S754_nan ->
         exists out g',
           f32.InnerProductDecoder.forward sigmoid
             (f32.InnerProductDecoder.eval
                (f32.InnerProductDecoder.__init__
                   (f32.Args.mk "InnerProductDecoder" 1 half 1) unit_init)) z g
           = Ok (out, g')
           /\ f32.at3 out 0 1 0 = S754_nan
           /\ unit_or_nan (f32.at3 out 0 1 0) = true
           /\ SFleb f32.zero (f32.at3 out 0 1 0) = false.
Proof.
  exists (f32.tensor2_of 2 [[e20; e20]; [e20; SFopp e20]]).
  split.
  - intros i j.
    destruct i as [| [| [| i]]]; (destruct j as [| [| [| j]]]; reflexivity).
  - intros sigmoid g Hnan.
    eexists. eexists. split; [reflexivity |].
    cbv beta iota zeta delta
        -[f32.mul f32.add f32.F.relu f32.F.mask e20 SFopp f32.zero f32.one half
          f32.py.sub f32.py.of_Z unit_or_nan SFleb].
    assert (E : f32.add (f32.add f32.zero (f32.mul e20 e20)) (f32.mul e20 (SFopp e20))
                = S754_nan) by (vm_compute; reflexivity).
    rewrite E, Hnan.
    repeat (rewrite f32_mul_nan || rewrite f32_add_nan_r || rewrite f32_add_nan
            || rewrite f32_relu_nan).
    rewrite Hnan. repeat split.
Qed.

(** C7, amended: in exact arithmetic every entry of the tensor
    [InnerProductDecoder.forward] returns lies in [[0, 1]], for every decoder,
    embedding matrix and state of the random generator; in the binary32
    arithmetic of the program every entry is nan or lies in [[0, 1]],
    whenever the sigmoid of the tensor library returns nothing else. *)
Theorem InnerProductDecoder_forward_range_or_nan :
  (forall (self : InnerProductDecoder.t) (z : Tensor2) (g : rng)
          (out : Tensor3) (g' : rng),
      InnerProductDecoder.forward self z g = Ok (out, g') ->
      forall i j k, 0 <= at3 out i j k <= 1)
  /\ (forall (sigmoid : f32.float -> f32.float)
             (self : f32.InnerProductDecoder.t) (z : f32.Tensor2) (g : f32.rng)
             (out : f32.Tensor3) (g' : f32.rng),
      (forall x, unit_or_nan (sigmoid x) = true) ->
      f32.InnerProductDecoder.forward sigmoid self z g = Ok (out, g') ->
      forall i j k, unit_or_nan (f32.at3 out i j k) = true).
Proof.
  split.
  - unfold InnerProductDecoder.forward. intros self z g out g' H i j k.
    apply bind_Ok in H as ([z1 g1] & _ & H).
    apply bind_Ok in H as (zz & _ & H).
    apply bind_Ok in H as ([a_hat g2] & _ & H).
    injection H as <- _.
    cbn [torch.map3d at3]. unfold F.sigmoid.
    pose proof (sigmoid_range (at3 a_hat i j k)). lra.
  - unfold f32.InnerProductDecoder.forward. intros sigmoid self z g out g' S H i j k.
    apply bind_Ok in H as ([z1 g1] & _ & H).
    apply bind_Ok in H as (zz & _ & H).
    apply bind_Ok in H as ([a_hat g2] & _ & H).
    injection H as <- _.
    cbn [f32.torch.map3d f32.at3]. apply S.
Qed.

Lemma InnerProductDecoder_forward_range_or_nan_witness :
  (exists out g',
     InnerProductDecoder.forward
         (InnerProductDecoder.__init__ (Args.mk "InnerProductDecoder" 2 (1 / 2) 3)
                                       (constant_init 1 0))
         (tensor2_of 2 [[1; 2]; [3; 4]]) (fun _ => 0) = Ok (out, g')
     /\ forall i j k, 0 <= at3 out i j k <= 1)
  /\ (exists out g',
        f32.InnerProductDecoder.forward hard_sigmoid
            (f32.InnerProductDecoder.__init__
               (f32.Args.mk "InnerProductDecoder" 1 half 1) unit_init)
            (f32.tensor2_of 2 [[f32.of_Z 1; f32.of_Z 2]; [f32.of_Z 3; f32.of_Z 4]])
            (fun _ => f32.py.of_Z 0) = Ok (out, g')
        /\ forall i j k, unit_or_nan (f32.at3 out i j k) = true).
Proof.
  split.
  - destruct (InnerProductDecoder_forward_returns
                (Args.mk "InnerProductDecoder" 2 (1 / 2) 3) (constant_init 1 0) true
                (tensor2_of 2 [[1; 2]; [3; 4]]) (fun _ => 0))
      as (out & g' & E).
    + cbn. lra.
    + exists out, g'. split; [exact E |].
      exact (proj1 InnerProductDecoder_forward_range_or_nan _ _ _ _ _ E).
  - eexists. eexists. split; [reflexivity |].
    eapply (proj2 InnerProductDecoder_forward_range_or_nan hard_sigmoid
             (f32.InnerProductDecoder.__init__
                (f32.Args.mk "InnerProductDecoder" 1 half 1) unit_init)
             (f32.tensor2_of 2 [[f32.of_Z 1; f32.of_Z 2]; [f32.of_Z 3; f32.of_Z 4]])
             (fun _ => f32.py.of_Z 0));
      [exact hard_sigmoid_range | reflexivity].
Defined.

(** *** Dropout and the mode of a module *)

Lemma relu_of_nonneg (v : R) : 0 <= v -> F.relu v = v.
Proof. intros H. unfold F.relu. now apply Rmax_right. Qed.

(** C3 (the code departs from it): [LinearClassifier.forward] calls
    [F.dropout] without passing the mode of the module, so the classifier
    drops in evaluation mode too.  On the unit classifier in evaluation mode
    and the input [[[[1]]]], the forward pass returns 0 or 4 according to the
    draws, never the value 1 of its layers composed without dropout. *)
Theorem LinearClassifier_eval_still_drops (g : rng) :
  LinearClassifier.training unit_classifier = false
  /\ (exists out g',
        LinearClassifier.forward unit_classifier (tensor3_of 1 1 [[[1]]]) g = Ok (out, g')
        /\ (at3 out 0 0 0 = 0 \/ at3 out 0 0 0 = 4))
  /\ (exists ref,
        LinearClassifier_without_dropout unit_classifier (tensor3_of 1 1 [[[1]]]) = Ok ref
        /\ at3 ref 0 0 0 = 1).
Proof.
  split; [reflexivity |]. split.
  - unfold LinearClassifier.forward, unit_classifier.
    cbn [LinearClassifier.eval LinearClassifier.__init__ LinearClassifier.layers
         LinearClassifier.dropout removelast LinearClassifier.hidden_layers
         Args.hidden_dim Args.dropout Args.num_classes].
    unfold Linear.forward3 at 1, Linear.width. cbn [Linear.in_channels bind].
    rewrite dropout3_mask by (cbn; (lra || discriminate)). cbn [bind].
    unfold Linear.forward3 at 1, Linear.width.
    cbn [Linear.in_channels Linear.out_channels torch.map3d dim0 dim1 dim2 Nat.eqb bind].
    rewrite dropout3_mask by (cbn; (lra || discriminate)). cbn [bind].
    eexists. eexists. split; [reflexivity |].
    cbn. unfold Linear.apply, sum_upto, advance. cbn. unfold F.drop.
    replace (1 / (1 - 1 / 2)) with 2 by field.
    rewrite (relu_of_nonneg (1 * 1 + 0 + 0)) by lra.
    destruct (Rlt_dec (g 0%nat) (1 - 1 / 2)); destruct (Rlt_dec (g 1%nat) (1 - 1 / 2));
      try rewrite relu_of_nonneg by lra; [right | left | left | left]; lra.
  - eexists. split; [reflexivity |].
    cbn. unfold Linear.apply, sum_upto. cbn.
    rewrite (relu_of_nonneg (1 * 1 + 0 + 0)) by lra.
    rewrite relu_of_nonneg by lra. lra.
Qed.

(** The encoder, which hands its mode to [F.dropout], is free of dropout in
    evaluation mode. *)
Lemma MLPEncoder_eval_without_dropout (self : MLPEncoder.t) (batch : Data.t) (g : rng) :
  0 <= MLPEncoder.dropout self <= 1 ->
  MLPEncoder.forward (MLPEncoder.eval self) batch g =
    (z <- MLPEncoder_without_dropout (MLPEncoder.eval self) batch ;; Ok (z, g)).
Proof.
  intros Hp. unfold MLPEncoder.forward, MLPEncoder_without_dropout.
  cbn [MLPEncoder.eval MLPEncoder.featureless MLPEncoder.node_embeddings
       MLPEncoder.dropout MLPEncoder.training MLPEncoder.linear1
       MLPEncoder.linear2 MLPEncoder.linear3].
  destruct (MLPEncoder.getattr (MLPEncoder.featureless self)) as [flag | e];
    [| reflexivity].
  cbn [bind].
  match goal with
  | |- bind ?m _ = _ => destruct m as [h | e]; [| reflexivity]
  end.
  cbn [bind]. rewrite dropout2_eval by assumption. cbn [bind].
  destruct (Linear.forward2 (MLPEncoder.linear2 self) _) as [h2 | e]; [| reflexivity].
  cbn [bind]. rewrite dropout2_eval by assumption. cbn [bind].
  destruct (Linear.forward2 (MLPEncoder.linear3 self) _) as [h3 | e]; reflexivity.
Qed.

(** ** The featureless flag of the MLP encoder *)

(** C10: the constructor of [MLPEncoder] sets [featureless] exactly when the
    data has no node feature matrix; an encoder built from data that has one
    lacks the attribute, and every forward call on it, in either mode and on
    any batch, raises [AttributeError]. *)
Theorem MLPEncoder_featureless_unset_with_features
        (args : Args.t) (data : Data.t) (ini : initializer) :
  (MLPEncoder.featureless (MLPEncoder.__init__ args data ini) = Some true
   <-> Data.x data = None)
  /\ (forall feats, Data.x data = Some feats ->
        MLPEncoder.featureless (MLPEncoder.__init__ args data ini) = None
        /\ forall (batch : Data.t) (g : rng),
             MLPEncoder.forward (MLPEncoder.__init__ args data ini) batch g
               = Raise AttributeError
             /\ MLPEncoder.forward (MLPEncoder.eval (MLPEncoder.__init__ args data ini))
                  batch g = Raise AttributeError).
Proof.
  split.
  - unfold MLPEncoder.__init__. cbn [MLPEncoder.featureless].
    destruct (Data.x data); split; intros H; (reflexivity || discriminate).
  - intros feats Hx.
    unfold MLPEncoder.forward, MLPEncoder.eval, MLPEncoder.__init__.
    cbn [MLPEncoder.featureless]. rewrite Hx.
    split; [reflexivity |]. intros batch g. split; reflexivity.
Qed.

Lemma MLPEncoder_featureless_unset_with_features_witness :
  MLPEncoder.featureless
    (MLPEncoder.__init__ (Args.mk "MLPEncoder" 2 (1 / 2) 3)
       (Data.mk (Some (tensor2_of 2 [[1; 2]; [3; 4]])) 2 (long1_of [0; 1]%Z)
                (long2_of 1 [[0]; [1]]%Z) None)
       (constant_init 1 0)) = None
  /\ forall (batch : Data.t) (g : rng),
       MLPEncoder.forward
         (MLPEncoder.__init__ (Args.mk "MLPEncoder" 2 (1 / 2) 3)
            (Data.mk (Some (tensor2_of 2 [[1; 2]; [3; 4]])) 2 (long1_of [0; 1]%Z)
                     (long2_of 1 [[0]; [1]]%Z) None)
            (constant_init 1 0)) batch g = Raise AttributeError
       /\ MLPEncoder.forward
            (MLPEncoder.eval
               (MLPEncoder.__init__ (Args.mk "MLPEncoder" 2 (1 / 2) 3)
                  (Data.mk (Some (tensor2_of 2 [[1; 2]; [3; 4]])) 2 (long1_of [0; 1]%Z)
                           (long2_of 1 [[0]; [1]]%Z) None)
                  (constant_init 1 0))) batch g = Raise AttributeError.
Proof.
  apply (proj2 (MLPEncoder_featureless_unset_with_features
                  (Args.mk "MLPEncoder" 2 (1 / 2) 3)
                  (Data.mk (Some (tensor2_of 2 [[1; 2]; [3; 4]])) 2 (long1_of [0; 1]%Z)
                           (long2_of 1 [[0]; [1]]%Z) None)
                  (constant_init 1 0))
          (tensor2_of 2 [[1; 2]; [3; 4]])).
  reflexivity.
Defined.

(** Built from data without features, the encoder runs on every batch whose
    node identifiers are rows of its embedding table. *)
Lemma MLPEncoder_featureless_returns
      (args : Args.t) (data batch : Data.t) (ini : initializer) (g : rng) :
  Data.x data = None ->
  0 <= Args.dropout args <= 1 ->
  (forall e, (e < llen (Data.node_ids batch))%nat ->
     (- Z.of_nat (Data.num_nodes data) <= lat1 (Data.node_ids batch) e
      < Z.of_nat (Data.num_nodes data))%Z) ->
  exists out g', MLPEncoder.forward (MLPEncoder.__init__ args data ini) batch g = Ok (out, g').
Proof.
  intros Hx Hp Hids.
  unfold MLPEncoder.forward, MLPEncoder.__init__.
  cbn [MLPEncoder.featureless MLPEncoder.node_embeddings MLPEncoder.dropout
       MLPEncoder.training MLPEncoder.linear1 MLPEncoder.linear2 MLPEncoder.linear3].
  rewrite Hx. cbn [MLPEncoder.getattr bind].
  unfold torch.index_rows. cbn [rows2 cols2].
  rewrite (all_in_range_true _ _ Hids). cbn [bind].
  unfold Linear.forward2 at 1, Linear.width. cbn [Linear.in_channels Linear.out_channels bind].
  match goal with
  | |- context [F.dropout2 ?t _ true g] =>
      destruct (dropout2_returns t (Args.dropout args) true g Hp)
        as (z1 & g1 & E1 & _ & C1)
  end.
  rewrite E1. cbn [bind].
  unfold Linear.forward2 at 1, Linear.width. cbn [Linear.in_channels Linear.out_channels].
  rewrite C1. cbn [torch.map2d cols2]. rewrite Nat.eqb_refl. cbn [bind].
  match goal with
  | |- context [F.dropout2 ?t _ true g1] =>
      destruct (dropout2_returns t (Args.dropout args) true g1 Hp)
        as (z2 & g2 & E2 & _ & C2)
  end.
  rewrite E2. cbn [bind].
  unfold Linear.forward2, Linear.width. cbn [Linear.in_channels Linear.out_channels].
  rewrite C2. cbn [torch.map2d cols2]. rewrite Nat.eqb_refl. cbn [bind].
  eexists. eexists. reflexivity.
Qed.

(** ** The model factory *)

(** A name the lookup does not find raises [NotImplementedError], and the
    message lists the six classes of the module. *)
Lemma get_model_unbound_name
      (lib : library) (ini : initializer) (args : Args.t) (data : Data.t) :
  module_getattr lib (Args.model args) = None ->
  get_model lib ini args data =
    Raise (NotImplementedError
             (Args.model args ++ " is not implemented. Choose a model in the list: "
                ++ advertised_models)).
Proof.
  intros H. unfold get_model, recursion_limit. cbn [get_model_in]. rewrite H.
  reflexivity.
Qed.

(** The one class of the module whose constructor takes [(args, data)]. *)
Lemma get_model_MLPEncoder
      (lib : library) (ini : initializer) (h c : nat) (p : R) (data : Data.t) :
  exists o, get_model lib ini (Args.mk "MLPEncoder" h p c) data = Ok o
            /\ instance_of cls_MLPEncoder o = true.
Proof. eexists. split; reflexivity. Qed.

(** Asked for ["get_model"], the factory finds itself and calls itself
    until the interpreter runs out of stack. *)
Lemma get_model_itself
      (lib : library) (ini : initializer) (h c : nat) (p : R) (data : Data.t) :
  get_model lib ini (Args.mk "get_model" h p c) data = Raise RecursionError.
Proof.
  unfold get_model. induction recursion_limit as [| frames IH]; [reflexivity |].
  cbn [get_model_in]. exact IH.
Qed.

(** C1 (the code departs from it): [get_model] looks the name up among all
    attributes of the module and calls whatever it finds with [(args, data)].
    The name of an imported module, such as ["torch"], is found and the call
    raises [TypeError] instead of [NotImplementedError]; and of the six model
    names the error message advertises only ["MLPEncoder"] yields an
    instance: the other five raise [TypeError], because their constructors do
    not take [(args, data)]. *)
Theorem get_model_raises_TypeError
        (lib : library) (ini : initializer) (h c : nat) (p : R) (data : Data.t) :
  getattr module_dict "torch" = Some ImportedModule
  /\ get_model lib ini (Args.mk "torch" h p c) data = Raise TypeError
  /\ forall cls : model_class,
       In (class_name cls) (getmembers_local_classes module_dict)
       /\ get_model lib ini (Args.mk (class_name cls) h p c) data =
            match cls with
            | cls_MLPEncoder =>
                Ok (I_MLPEncoder
                      (MLPEncoder.__init__ (Args.mk "MLPEncoder" h p c) data ini))
            | _ => Raise TypeError
            end.
Proof.
  split; [reflexivity |]. split; [reflexivity |].
  intros cls. destruct cls; (split; [cbn; tauto | reflexivity]).
Qed.

(** * Further properties of the code *)

(** ** The loss function: errors and edge cases *)

Lemma bdim_broadcastable (a b : nat) :
  broadcastable a b ->
  exists r, torch.bdim a b = Some r /\ torch.bdim r a = Some r /\ torch.bdim r b = Some r.
Proof.
  unfold broadcastable, torch.bdim. intros H.
  destruct (Nat.eqb_spec a b) as [-> | Hab].
  - exists b. rewrite Nat.eqb_refl. repeat split.
  - destruct (Nat.eqb_spec a 1) as [-> | Ha].
    + exists b. rewrite Nat.eqb_refl.
      destruct (Nat.eqb_spec b 1); [lia |]. repeat split.
    + destruct (Nat.eqb_spec b 1) as [-> | Hb]; [| lia].
      exists a. rewrite Nat.eqb_refl.
      destruct (Nat.eqb_spec a 1); [lia |]. repeat split.
Qed.

Lemma bdim_not_broadcastable (a b : nat) :
  ~ broadcastable a b -> torch.bdim a b = None.
Proof.
  unfold broadcastable, torch.bdim. intros H.
  destruct (Nat.eqb_spec a b); [tauto |].
  destruct (Nat.eqb_spec a 1); [tauto |].
  destruct (Nat.eqb_spec b 1); [tauto | reflexivity].
Qed.

Lemma broadcastable_sym (a b : nat) : broadcastable a b -> broadcastable b a.
Proof. unfold broadcastable. intuition. Qed.

Lemma KLD_returns (mu logvar : Tensor2) (n_nodes : nat) :
  (0 < n_nodes)%nat ->
  broadcastable (rows2 mu) (rows2 logvar) -> broadcastable (cols2 mu) (cols2 logvar) ->
  exists v, optimizer.KLD mu logvar n_nodes = Ok v.
Proof.
  intros Hk Hr Hc. unfold optimizer.KLD.
  destruct n_nodes as [| k]; [lia |].
  destruct (bdim_broadcastable _ _ (broadcastable_sym _ _ Hr)) as (r & Er & Er' & _).
  destruct (bdim_broadcastable _ _ (broadcastable_sym _ _ Hc)) as (c & Ec & Ec' & _).
  unfold torch.sub, torch.ewise2.
  cbn [torch.radd torch.rmul torch.pow2 torch.texp torch.map2d rows2 cols2].
  rewrite Er, Ec. cbn [bind rows2 cols2]. rewrite Er', Ec'. cbn [bind].
  eexists. reflexivity.
Qed.

Lemma bdim_Some_broadcastable (a b r : nat) :
  torch.bdim a b = Some r -> broadcastable a b.
Proof.
  unfold broadcastable, torch.bdim.
  destruct (Nat.eqb_spec a b); [tauto |].
  destruct (Nat.eqb_spec a 1); [tauto |].
  destruct (Nat.eqb_spec b 1); [tauto | discriminate].
Qed.

Lemma KLD_not_broadcastable (mu logvar : Tensor2) (n_nodes : nat) :
  (0 < n_nodes)%nat ->
  ~ (broadcastable (rows2 mu) (rows2 logvar) /\ broadcastable (cols2 mu) (cols2 logvar)) ->
  optimizer.KLD mu logvar n_nodes = Raise RuntimeError.
Proof.
  intros Hk Hn. unfold optimizer.KLD.
  destruct n_nodes as [| k]; [lia |].
  unfold torch.sub at 1, torch.ewise2.
  cbn [torch.radd torch.rmul torch.pow2 torch.map2d rows2 cols2].
  destruct (torch.bdim (rows2 logvar) (rows2 mu)) as [r |] eqn:Er; [| reflexivity].
  destruct (torch.bdim (cols2 logvar) (cols2 mu)) as [c |] eqn:Ec; [| reflexivity].
  exfalso. apply Hn. split; apply broadcastable_sym.
  - exact (bdim_Some_broadcastable _ _ _ Er).
  - exact (bdim_Some_broadcastable _ _ _ Ec).
Qed.

Lemma same_shape_match (preds : Tensor3) (labels : Tensor2) :
  same_shape3 (torch.unsqueeze2_repeat labels 10) preds = true <-> logits_match preds labels.
Proof.
  unfold same_shape3, logits_match. cbn [torch.unsqueeze2_repeat dim0 dim1 dim2].
  rewrite !andb_true_iff, !Nat.eqb_eq. intuition.
Qed.

(** X3: which way [loss_function] fails.  Logits that do not have the
    labels' shape with ten channels raise [ValueError], whatever the other
    arguments; with matching logits a node count of zero raises
    [ZeroDivisionError]; with a positive node count latent tensors whose
    shapes do not broadcast raise [RuntimeError]; in every other case the
    function returns. *)
Theorem loss_function_failures
        (preds : Tensor3) (labels mu logvar : Tensor2) (n_nodes : nat) (norm pw : R) :
  (~ logits_match preds labels ->
   optimizer.loss_function preds labels mu logvar n_nodes norm pw = Raise ValueError)
  /\ (logits_match preds labels -> n_nodes = 0%nat ->
      optimizer.loss_function preds labels mu logvar n_nodes norm pw
        = Raise ZeroDivisionError)
  /\ (logits_match preds labels -> (0 < n_nodes)%nat ->
      ~ (broadcastable (rows2 mu) (rows2 logvar)
         /\ broadcastable (cols2 mu) (cols2 logvar)) ->
      optimizer.loss_function preds labels mu logvar n_nodes norm pw = Raise RuntimeError)
  /\ (logits_match preds labels -> (0 < n_nodes)%nat ->
      broadcastable (rows2 mu) (rows2 logvar) ->
      broadcastable (cols2 mu) (cols2 logvar) ->
      exists v, optimizer.loss_function preds labels mu logvar n_nodes norm pw = Ok v).
Proof.
  unfold optimizer.loss_function, F.binary_cross_entropy_with_logits.
  pose proof (same_shape_match preds labels) as Hm.
  destruct (same_shape3 (torch.unsqueeze2_repeat labels 10) preds).
  - assert (logits_match preds labels) as Hok by now apply Hm.
    cbn [bind]. repeat split.
    + intros Hn. contradiction.
    + intros _ ->. reflexivity.
    + intros _ Hk Hb. now rewrite (KLD_not_broadcastable mu logvar n_nodes Hk Hb).
    + intros _ Hk Hr Hc. destruct (KLD_returns mu logvar n_nodes Hk Hr Hc) as [v ->].
      eexists. reflexivity.
  - assert (~ logits_match preds labels) as Hno by (intros H; apply Hm in H; discriminate).
    repeat split; intros; (reflexivity || contradiction).
Qed.

Lemma loss_function_failures_witness :
  optimizer.loss_function (torch.zeros3 2 2 3) (torch.zeros2 2 2)
      (torch.zeros2 2 1) (torch.zeros2 2 1) 0 1 1 = Raise ValueError
  /\ optimizer.loss_function (torch.zeros3 2 2 10) (torch.zeros2 2 2)
       (torch.zeros2 2 1) (torch.zeros2 2 1) 0 1 1 = Raise ZeroDivisionError
  /\ optimizer.loss_function (torch.zeros3 2 2 10) (torch.zeros2 2 2)
       (torch.zeros2 2 3) (torch.zeros2 3 3) 2 1 1 = Raise RuntimeError
  /\ exists v, optimizer.loss_function (torch.zeros3 2 2 10) (torch.zeros2 2 2)
                 (torch.zeros2 2 3) (torch.zeros2 1 3) 2 1 1 = Ok v.
Proof.
  split; [| split; [| split]].
  - apply (loss_function_failures (torch.zeros3 2 2 3) (torch.zeros2 2 2)
             (torch.zeros2 2 1) (torch.zeros2 2 1) 0 1 1).
    unfold logits_match. cbn. lia.
  - apply (loss_function_failures (torch.zeros3 2 2 10) (torch.zeros2 2 2)
             (torch.zeros2 2 1) (torch.zeros2 2 1) 0 1 1);
      [repeat split | reflexivity].
  - apply (loss_function_failures (torch.zeros3 2 2 10) (torch.zeros2 2 2)
             (torch.zeros2 2 3) (torch.zeros2 3 3) 2 1 1);
      [repeat split | lia |].
    unfold broadcastable. cbn. lia.
  - apply (loss_function_failures (torch.zeros3 2 2 10) (torch.zeros2 2 2)
             (torch.zeros2 2 3) (torch.zeros2 1 3) 2 1 1);
      [repeat split | lia | |]; unfold broadcastable; cbn; lia.
Defined.



(** ** The DistMult decoders: values and failures *)



(** X5: on edges that name nodes of [z], one relation per edge taken from the
    table, and embeddings as wide as the table, [DistMultDecoder.forward]
    returns one score per edge: the sum over the latent dimensions of source
    times relation times destination. *)
Theorem DistMult_forward_scores
        (self : DistMultDecoder.t) (z : Tensor2)
        (edge_index : LongTensor2) (edge_type : LongTensor1) :
  edges_of (rows2 z) edge_index ->
  llen edge_type = lcols edge_index ->
  (forall e, (e < llen edge_type)%nat ->
     (- Z.of_nat (rows2 (DistMultDecoder.rel_emb self)) <= lat1 edge_type e
      < Z.of_nat (rows2 (DistMultDecoder.rel_emb self)))%Z) ->
  cols2 z = cols2 (DistMultDecoder.rel_emb self) ->
  exists s,
    DistMultDecoder.forward self z edge_index edge_type = Ok s
    /\ len1 s = lcols edge_index
    /\ forall e, (e < lcols edge_index)%nat ->
         at1 s e =
           distmult_score z (DistMultDecoder.rel_emb self)
             (torch.row_of (rows2 z) (lat2 edge_index 0 e))
             (torch.row_of (rows2 (DistMultDecoder.rel_emb self)) (lat1 edge_type e))
             (torch.row_of (rows2 z) (lat2 edge_index 1 e)).
Proof.
  intros [Hr Hi] Hlen Ht Hc.
  unfold DistMultDecoder.forward, torch.long_row.
  destruct (Nat.ltb_spec 0 (lrows edge_index)); [| lia].
  destruct (Nat.ltb_spec 1 (lrows edge_index)); [| lia].
  cbn [bind]. unfold torch.index_rows.
  rewrite !all_in_range_true by (cbn [llen lat1]; intros; apply Hi; lia).
  cbn [bind]. rewrite (all_in_range_true _ _ Ht). cbn [bind].
  unfold torch.mul, torch.ewise2. cbn [rows2 cols2 llen].
  rewrite Hlen, <- Hc, !bdim_same. cbn [bind rows2 cols2]. rewrite !bdim_same.
  cbn [bind]. eexists. split; [reflexivity |].
  cbn [torch.sum_dim1 len1 at1 rows2 cols2 at2 lat1].
  split; [reflexivity |]. intros e He.
  unfold distmult_score. apply sum_upto_ext. intros k Hk.
  rewrite !(bidx_lt (lcols edge_index) e He), !(bidx_lt (cols2 z) k Hk).
  reflexivity.
Qed.

Lemma DistMult_forward_scores_witness :
  exists s,
    DistMultDecoder.forward (DistMultDecoder.mk (tensor2_of 2 [[5; 7]]))
        (tensor2_of 2 [[1; 2]; [3; 4]]) (long2_of 1 [[0]; [1]]%Z) (long1_of [0%Z]) = Ok s
    /\ len1 s = 1%nat.
Proof.
  destruct (DistMult_forward_scores (DistMultDecoder.mk (tensor2_of 2 [[5; 7]]))
              (tensor2_of 2 [[1; 2]; [3; 4]]) (long2_of 1 [[0]; [1]]%Z) (long1_of [0%Z]))
    as (s & Hs & Hl & _).
  - split; [cbn; lia |]. intros r e Hr He. cbn in He.
    destruct e as [| e]; [| lia]. destruct r as [| [| r]]; [| | lia]; cbn; lia.
  - reflexivity.
  - intros e He. cbn in He. destruct e as [| e]; [| lia]. cbn. lia.
  - reflexivity.
  - exists s. split; assumption.
Defined.



Lemma scores_entries (self : HetDistMultDecoder.t) (z : Tensor2) (edge_index : LongTensor2) :
  edges_of (rows2 z) edge_index ->
  cols2 z = rows2 (HetDistMultDecoder.rel_emb self) ->
  exists out,
    HetDistMultDecoder.scores self z edge_index = Ok out
    /\ rows2 out = lcols edge_index
    /\ cols2 out = cols2 (HetDistMultDecoder.rel_emb self)
    /\ forall e r, (e < lcols edge_index)%nat ->
         at2 out e r =
           het_score z (HetDistMultDecoder.rel_emb self)
             (torch.row_of (rows2 z) (lat2 edge_index 0 e))
             (torch.row_of (rows2 z) (lat2 edge_index 1 e)) r.
Proof.
  intros [Hr Hi] Hc.
  unfold HetDistMultDecoder.scores, torch.long_row.
  destruct (Nat.ltb_spec 0 (lrows edge_index)); [| lia].
  destruct (Nat.ltb_spec 1 (lrows edge_index)); [| lia].
  cbn [bind]. unfold torch.index_rows.
  rewrite !all_in_range_true by (cbn [llen lat1]; intros; apply Hi; lia).
  cbn [bind]. unfold torch.mul, torch.ewise2. cbn [rows2 cols2 llen].
  rewrite !bdim_same. cbn [bind]. unfold torch.mm. cbn [rows2 cols2].
  rewrite Hc, Nat.eqb_refl. eexists. split; [reflexivity |].
  cbn [rows2 cols2 at2 lat1]. repeat split.
  intros e r He. unfold het_score. rewrite <- Hc.
  apply sum_upto_ext. intros k Hk.
  rewrite !(bidx_lt (lcols edge_index) e He), !(bidx_lt (cols2 z) k Hk).
  reflexivity.
Qed.

(** X7: on edge lists that name nodes of [z] and embeddings of the decoder's
    width, [HetDistMultDecoder.forward] returns the scores of the positive
    edges in its first rows and, when the batch has negative edges, their
    scores in the rows that follow; the entry of an edge in column [r] is the
    sum over latent dimensions of source times destination times column [r]
    of the relation matrix. *)
Theorem HetDistMult_forward_scores
        (self : HetDistMultDecoder.t) (z : Tensor2) (batch : Data.t) :
  edges_of (rows2 z) (Data.pos_edge_index batch) ->
  match Data.neg_edge_index batch with
  | Some neg => edges_of (rows2 z) neg
  | None => True
  end ->
  cols2 z = rows2 (HetDistMultDecoder.rel_emb self) ->
  exists out,
    HetDistMultDecoder.forward self z batch = Ok out
    /\ (forall e r, (e < lcols (Data.pos_edge_index batch))%nat ->
          at2 out e r =
            het_score z (HetDistMultDecoder.rel_emb self)
              (torch.row_of (rows2 z) (lat2 (Data.pos_edge_index batch) 0 e))
              (torch.row_of (rows2 z) (lat2 (Data.pos_edge_index batch) 1 e)) r)
    /\ match Data.neg_edge_index batch with
       | Some neg =>
           forall e r, (e < lcols neg)%nat ->
             at2 out (lcols (Data.pos_edge_index batch) + e) r =
               het_score z (HetDistMultDecoder.rel_emb self)
                 (torch.row_of (rows2 z) (lat2 neg 0 e))
                 (torch.row_of (rows2 z) (lat2 neg 1 e)) r
       | None => True
       end.
Proof.
  intros Hp Hn Hc. unfold HetDistMultDecoder.forward.
  destruct (scores_entries self z _ Hp Hc) as (out & Ho & Ro & Co & Eo).
  rewrite Ho. cbn [bind].
  destruct (Data.neg_edge_index batch) as [neg |].
  - destruct (scores_entries self z neg Hn Hc) as (nout & Hno & Rn & Cn & En).
    rewrite Hno. cbn [bind]. unfold torch.cat.
    rewrite Co, Cn, Nat.eqb_refl. eexists. split; [reflexivity |].
    cbn [at2]. split.
    + intros e r He. rewrite Ro.
      destruct (Nat.ltb_spec e (lcols (Data.pos_edge_index batch))); [| lia].
      now apply Eo.
    + intros e r He. rewrite Ro.
      destruct (Nat.ltb_spec (lcols (Data.pos_edge_index batch) + e)
                             (lcols (Data.pos_edge_index batch))); [lia |].
      replace (lcols (Data.pos_edge_index batch) + e - lcols (Data.pos_edge_index batch))%nat
        with e by lia.
      now apply En.
  - exists out. split; [reflexivity |]. split; [exact Eo | exact I].
Qed.

Lemma HetDistMult_forward_scores_witness :
  exists out,
    HetDistMultDecoder.forward
      (HetDistMultDecoder.__init__ 2 2 (constant_init 1 0))
      (tensor2_of 2 [[1; 2]; [3; 4]])
      (Data.mk None 2 (long1_of [0; 1]%Z) (long2_of 1 [[0]; [1]]%Z)
               (Some (long2_of 1 [[1]; [1]]%Z))) = Ok out
    /\ at2 out 0 0 = het_score (tensor2_of 2 [[1; 2]; [3; 4]])
                       (mkT2 2 3 (fun _ _ => 1)) 0 1 0
    /\ at2 out 1 0 = het_score (tensor2_of 2 [[1; 2]; [3; 4]])
                       (mkT2 2 3 (fun _ _ => 1)) 1 1 0.
Proof.
  destruct (HetDistMult_forward_scores
              (HetDistMultDecoder.__init__ 2 2 (constant_init 1 0))
              (tensor2_of 2 [[1; 2]; [3; 4]])
              (Data.mk None 2 (long1_of [0; 1]%Z) (long2_of 1 [[0]; [1]]%Z)
                       (Some (long2_of 1 [[1]; [1]]%Z))))
    as (out & Ho & Hp & Hn).
  - split; [cbn; lia |]. intros r e Hr He. cbn in He.
    destruct e as [| e]; [| lia]. destruct r as [| [| r]]; [| | lia]; cbn; lia.
  - split; [cbn; lia |]. intros r e Hr He. cbn in He.
    destruct e as [| e]; [| lia]. destruct r as [| [| r]]; [| | lia]; cbn; lia.
  - reflexivity.
  - exists out. split; [exact Ho |]. split.
    + apply (Hp 0%nat 0%nat). cbn. lia.
    + apply (Hn 0%nat 0%nat). cbn. lia.
Defined.

Lemma scores_swap (self : HetDistMultDecoder.t) (z : Tensor2) (edge_index : LongTensor2) :
  same_result2 (HetDistMultDecoder.scores self z (swap_endpoints edge_index))
               (HetDistMultDecoder.scores self z edge_index).
Proof.
  unfold HetDistMultDecoder.scores, torch.long_row.
  cbn [swap_endpoints lrows lcols lat2].
  destruct (0 <? lrows edge_index)%nat eqn:E0; [| reflexivity].
  destruct (1 <? lrows edge_index)%nat eqn:E1.
  - cbn [bind]. unfold torch.index_rows. cbn [llen lat1].
    destruct (torch.all_in_range (rows2 z) {| llen := lcols edge_index; lat1 := fun e => lat2 edge_index 1 e |});
      destruct (torch.all_in_range (rows2 z) {| llen := lcols edge_index; lat1 := fun e => lat2 edge_index 0 e |});
      cbn [bind]; try reflexivity.
    unfold torch.mul, torch.ewise2. cbn [rows2 cols2 at2]. rewrite !bdim_same.
    cbn [bind]. unfold torch.mm. cbn [rows2 cols2].
    destruct (cols2 z =? rows2 (HetDistMultDecoder.rel_emb self))%nat; [| reflexivity].
    cbn [same_result2 rows2 cols2 at2].
    split; [reflexivity |]. split; [reflexivity |]. intros e r _ _.
    apply sum_upto_ext. intros k _. ring.
  - cbn [bind]. unfold torch.index_rows. cbn [llen lat1].
    destruct (torch.all_in_range _ _); destruct (torch.all_in_range _ _); reflexivity.
Qed.

(** X8: the heterogeneous decoder does not see the direction of an edge:
    exchanging source and destination of every positive and negative edge of
    the batch leaves the outcome of [HetDistMultDecoder.forward] unchanged. *)
Theorem HetDistMult_symmetric
        (self : HetDistMultDecoder.t) (z : Tensor2) (batch : Data.t) :
  same_result2 (HetDistMultDecoder.forward self z (swap_batch batch))
               (HetDistMultDecoder.forward self z batch).
Proof.
  unfold HetDistMultDecoder.forward.
  cbn [swap_batch Data.pos_edge_index Data.neg_edge_index].
  pose proof (scores_swap self z (Data.pos_edge_index batch)) as Hp.
  destruct (HetDistMultDecoder.scores self z (swap_endpoints (Data.pos_edge_index batch)))
    as [a' | e'];
    destruct (HetDistMultDecoder.scores self z (Data.pos_edge_index batch)) as [a | e];
    cbn [same_result2] in Hp; try contradiction; cbn [bind].
  - destruct Hp as (Ra & Ca & Ea).
    destruct (Data.neg_edge_index batch) as [neg |]; cbn [option_map].
    + pose proof (scores_swap self z neg) as Hn.
      destruct (HetDistMultDecoder.scores self z (swap_endpoints neg)) as [b' | e'];
        destruct (HetDistMultDecoder.scores self z neg) as [b | e];
        cbn [same_result2] in Hn; try contradiction; cbn [bind]; [| exact Hn].
      destruct Hn as (Rb & Cb & Eb).
      unfold torch.cat. rewrite Ca, Cb.
      destruct (Nat.eqb_spec (cols2 a) (cols2 b)) as [Cab |]; [| reflexivity].
      cbn [same_result2 rows2 cols2 at2].
      split; [congruence |]. split; [congruence |].
      intros i j Hi Hj. rewrite Ra.
      destruct (Nat.ltb_spec i (rows2 a)).
      * apply Ea; lia.
      * apply Eb; lia.
    + cbn [same_result2]. repeat split; assumption.
  - exact Hp.
Qed.



(** ** The classifier and the inner-product decoder: shapes *)

Lemma LinearClassifier_forward_shape
      (args : Args.t) (ini : initializer) (mode : bool) (z : Tensor3) (g : rng) :
  0 <= Args.dropout args <= 1 ->
  let self := if mode then LinearClassifier.__init__ args ini
              else LinearClassifier.eval (LinearClassifier.__init__ args ini) in
  exists out g',
    LinearClassifier.forward self z g = Ok (out, g')
    /\ dim0 out = dim0 z /\ dim1 out = dim1 z /\ dim2 out = Args.num_classes args.
Proof.
  intros Hp self.
  assert (Hl : LinearClassifier.layers self
               = LinearClassifier.layers (LinearClassifier.__init__ args ini)
               /\ LinearClassifier.dropout self = Args.dropout args)
    by (destruct mode; split; reflexivity).
  destruct Hl as [Hl Hd].
  unfold LinearClassifier.forward. rewrite Hl, Hd.
  cbn [LinearClassifier.__init__ LinearClassifier.layers removelast
       LinearClassifier.hidden_layers].
  unfold Linear.forward3 at 1, Linear.width. cbn [Linear.in_channels Linear.out_channels bind].
  match goal with
  | |- context [F.dropout3 ?t _ true g] =>
      destruct (dropout3_returns t (Args.dropout args) true g Hp)
        as (z1 & g1 & E1 & A1 & B1 & D1)
  end.
  rewrite E1. cbn [bind].
  unfold Linear.forward3 at 1, Linear.width. cbn [Linear.in_channels Linear.out_channels].
  rewrite D1. cbn [torch.map3d dim2]. rewrite Nat.eqb_refl. cbn [bind].
  match goal with
  | |- context [F.dropout3 ?t _ true g1] =>
      destruct (dropout3_returns t (Args.dropout args) true g1 Hp)
        as (z2 & g2 & E2 & A2 & B2 & D2)
  end.
  rewrite E2. cbn [bind py_last rev app].
  unfold Linear.forward3, Linear.width. cbn [Linear.in_channels Linear.out_channels].
  rewrite D2. cbn [torch.map3d dim2]. rewrite Nat.eqb_refl. cbn [bind].
  eexists. eexists. split; [reflexivity |].
  cbn [torch.map3d dim0 dim1 dim2] in A1, B1, A2, B2 |- *.
  repeat split; congruence.
Qed.

(** X11: a classifier as its constructor builds it, with a dropout rate in
    [[0, 1]], accepts every input, in evaluation mode as in training mode:
    [LinearClassifier.forward] returns a tensor with the two leading
    dimensions of the input and [num_classes] channels, whatever the number
    of channels of the input. *)
Theorem LinearClassifier_forward_output_shape
        (args : Args.t) (ini : initializer) (mode : bool) (z : Tensor3) (g : rng) :
  0 <= Args.dropout args <= 1 ->
  let self := if mode then LinearClassifier.__init__ args ini
              else LinearClassifier.eval (LinearClassifier.__init__ args ini) in
  exists out g',
    LinearClassifier.forward self z g = Ok (out, g')
    /\ dim0 out = dim0 z /\ dim1 out = dim1 z /\ dim2 out = Args.num_classes args.
Proof. exact (LinearClassifier_forward_shape args ini mode z g). Qed.

Lemma LinearClassifier_forward_output_shape_witness :
  exists out g',
    LinearClassifier.forward
        (LinearClassifier.eval
           (LinearClassifier.__init__ (Args.mk "InnerProductDecoder" 2 (1 / 2) 3)
                                      (constant_init 1 0)))
        (torch.zeros3 2 2 7) (fun m => INR m) = Ok (out, g')
    /\ dim0 out = 2%nat /\ dim1 out = 2%nat /\ dim2 out = 3%nat.
Proof.
  apply (LinearClassifier_forward_output_shape
           (Args.mk "InnerProductDecoder" 2 (1 / 2) 3) (constant_init 1 0) false
           (torch.zeros3 2 2 7) (fun m => INR m)).
  cbn. lra.
Defined.

Lemma InnerProductDecoder_forward_shape
      (args : Args.t) (ini : initializer) (mode : bool) (z : Tensor2) (g : rng) :
  0 <= Args.dropout args <= 1 ->
  let self := if mode then InnerProductDecoder.__init__ args ini
              else InnerProductDecoder.eval (InnerProductDecoder.__init__ args ini) in
  exists out g',
    InnerProductDecoder.forward self z g = Ok (out, g')
    /\ dim0 out = rows2 z /\ dim1 out = rows2 z /\ dim2 out = Args.num_classes args.
Proof.
  intros Hp self.
  unfold InnerProductDecoder.forward.
  assert (Hs : InnerProductDecoder.dropout self = Args.dropout args
               /\ InnerProductDecoder.num_classes self = Args.num_classes args
               /\ InnerProductDecoder.classifier self
                  = if mode then LinearClassifier.__init__ args ini
                    else LinearClassifier.eval (LinearClassifier.__init__ args ini))
    by (subst self; destruct mode; repeat split).
  destruct Hs as (Hd & Hn & Hc). rewrite Hd, Hn, Hc.
  destruct (dropout2_returns z (Args.dropout args) (InnerProductDecoder.training self) g Hp)
    as (z1 & g1 & E1 & R1 & _).
  rewrite E1. cbn [bind].
  unfold torch.mm. cbn [torch.t rows2 cols2]. rewrite Nat.eqb_refl. cbn [bind].
  match goal with
  | |- context [LinearClassifier.forward _ ?a g1] =>
      destruct (LinearClassifier_forward_shape args ini mode a g1 Hp)
        as (o & g2 & E & D0 & D1 & D2)
  end.
  rewrite E. cbn [bind].
  eexists. eexists. split; [reflexivity |].
  cbn [torch.map3d dim0 dim1 dim2].
  cbn [torch.unsqueeze2_repeat torch.map2d dim0 dim1 rows2 cols2] in D0, D1.
  repeat split; congruence.
Qed.

(** X12: an inner-product decoder as its constructor builds it, with a
    dropout rate in [[0, 1]], returns on every embedding matrix, in either
    mode, a tensor of shape nodes x nodes x [num_classes]. *)
Theorem InnerProductDecoder_forward_output_shape
        (args : Args.t) (ini : initializer) (mode : bool) (z : Tensor2) (g : rng) :
  0 <= Args.dropout args <= 1 ->
  let self := if mode then InnerProductDecoder.__init__ args ini
              else InnerProductDecoder.eval (InnerProductDecoder.__init__ args ini) in
  exists out g',
    InnerProductDecoder.forward self z g = Ok (out, g')
    /\ dim0 out = rows2 z /\ dim1 out = rows2 z /\ dim2 out = Args.num_classes args.
Proof. exact (InnerProductDecoder_forward_shape args ini mode z g). Qed.

Lemma InnerProductDecoder_forward_output_shape_witness :
  exists out g',
    InnerProductDecoder.forward
        (InnerProductDecoder.eval
           (InnerProductDecoder.__init__ (Args.mk "InnerProductDecoder" 2 (1 / 2) 3)
                                         (constant_init 1 0)))
        (tensor2_of 2 [[1; 2]; [3; 4]]) (fun m => INR m) = Ok (out, g')
    /\ dim0 out = 2%nat /\ dim1 out = 2%nat /\ dim2 out = 3%nat.
Proof.
  apply (InnerProductDecoder_forward_output_shape
           (Args.mk "InnerProductDecoder" 2 (1 / 2) 3) (constant_init 1 0) false
           (tensor2_of 2 [[1; 2]; [3; 4]]) (fun m => INR m)).
  cbn. lra.
Defined.

(** X13: a dropout rate outside [[0, 1]] makes [InnerProductDecoder.forward]
    raise [ValueError] on every input, in evaluation mode too. *)
Theorem InnerProductDecoder_invalid_rate
        (self : InnerProductDecoder.t) (z : Tensor2) (g : rng) :
  InnerProductDecoder.dropout self < 0 \/ 1 < InnerProductDecoder.dropout self ->
  InnerProductDecoder.forward self z g = Raise ValueError.
Proof.
  intros H. unfold InnerProductDecoder.forward, F.dropout2, F.valid_rate.
  destruct (Rlt_dec (InnerProductDecoder.dropout self) 0); [reflexivity |].
  destruct (Rlt_dec 1 (InnerProductDecoder.dropout self)); [reflexivity |].
  lra.
Qed.

Lemma InnerProductDecoder_invalid_rate_witness :
  InnerProductDecoder.forward
      (InnerProductDecoder.eval
         (InnerProductDecoder.__init__ (Args.mk "InnerProductDecoder" 2 2 3)
                                       (constant_init 1 0)))
      (tensor2_of 2 [[1; 2]; [3; 4]]) (fun _ => 0) = Raise ValueError.
Proof.
  apply InnerProductDecoder_invalid_rate. right. cbn. lra.
Defined.

(** X14: what the inner-product decoder returns fits [loss_function] only
    for ten classes: against labels of shape nodes x nodes the output of a
    decoder configured with another number of classes is rejected with
    [ValueError], and with ten classes it has the shape [loss_function]
    checks for. *)
Theorem InnerProductDecoder_output_into_loss
        (args : Args.t) (ini : initializer) (mode : bool) (z : Tensor2) (g : rng)
        (labels mu logvar : Tensor2) (n_nodes : nat) (norm pw : R) :
  0 <= Args.dropout args <= 1 ->
  rows2 labels = rows2 z -> cols2 labels = rows2 z ->
  let self := if mode then InnerProductDecoder.__init__ args ini
              else InnerProductDecoder.eval (InnerProductDecoder.__init__ args ini) in
  exists out g',
    InnerProductDecoder.forward self z g = Ok (out, g')
    /\ (Args.num_classes args <> 10%nat ->
        optimizer.loss_function out labels mu logvar n_nodes norm pw = Raise ValueError)
    /\ (Args.num_classes args = 10%nat -> logits_match out labels).
Proof.
  intros Hp Hr Hc self.
  destruct (InnerProductDecoder_forward_shape args ini mode z g Hp)
    as (out & g' & E & D0 & D1 & D2).
  exists out, g'. split; [exact E |]. split.
  - intros Hn.
    unfold optimizer.loss_function, F.binary_cross_entropy_with_logits.
    destruct (same_shape3 (torch.unsqueeze2_repeat labels 10) out) eqn:S; [| reflexivity].
    apply same_shape_match in S. destruct S as (_ & _ & S). congruence.
  - intros H10. unfold logits_match. repeat split; congruence.
Qed.

Lemma InnerProductDecoder_output_into_loss_witness :
  exists out g',
    InnerProductDecoder.forward
        (InnerProductDecoder.__init__ (Args.mk "InnerProductDecoder" 2 (1 / 2) 3)
                                      (constant_init 1 0))
        (tensor2_of 2 [[1; 2]; [3; 4]]) (fun _ => 0) = Ok (out, g')
    /\ optimizer.loss_function out (torch.zeros2 2 2) (torch.zeros2 2 1) (torch.zeros2 2 1)
         2 1 1 = Raise ValueError.
Proof.
  destruct (InnerProductDecoder_output_into_loss
              (Args.mk "InnerProductDecoder" 2 (1 / 2) 3) (constant_init 1 0) true
              (tensor2_of 2 [[1; 2]; [3; 4]]) (fun _ => 0)
              (torch.zeros2 2 2) (torch.zeros2 2 1) (torch.zeros2 2 1) 2 1 1)
    as (out & g' & E & Hbad & _); try reflexivity.
  - cbn. lra.
  - exists out, g'. split; [exact E |]. apply Hbad. cbn. lia.
Defined.

(** ** The MLP encoder on a featureless graph *)

Lemma relu_nonneg (v : R) : 0 <= F.relu v.
Proof. unfold F.relu. apply Rmax_l. Qed.

Lemma MLPEncoder_featureless_spec
      (args : Args.t) (data batch : Data.t) (ini : initializer) (mode : bool) (g : rng) :
  Data.x data = None ->
  0 <= Args.dropout args <= 1 ->
  (forall e, (e < llen (Data.node_ids batch))%nat ->
     (- Z.of_nat (Data.num_nodes data) <= lat1 (Data.node_ids batch) e
      < Z.of_nat (Data.num_nodes data))%Z) ->
  let self := if mode then MLPEncoder.__init__ args data ini
              else MLPEncoder.eval (MLPEncoder.__init__ args data ini) in
  exists out g',
    MLPEncoder.forward self batch g = Ok (out, g')
    /\ rows2 out = llen (Data.node_ids batch)
    /\ cols2 out = Args.hidden_dim args
    /\ forall i j, 0 <= at2 out i j.
Proof.
  intros Hx Hp Hids self.
  assert (Hs : MLPEncoder.featureless self = Some true
               /\ MLPEncoder.node_embeddings self
                  = Some (mkT2 (Data.num_nodes data) (Args.hidden_dim args) (empty_of ini))
               /\ MLPEncoder.dropout self = Args.dropout args
               /\ MLPEncoder.linear1 self
                  = Linear.mk None (Args.hidden_dim args) (weight_of ini 0) (bias_of ini 0)
               /\ MLPEncoder.linear2 self
                  = Linear.mk (Some (Args.hidden_dim args)) (Args.hidden_dim args)
                              (weight_of ini 1) (bias_of ini 1)
               /\ MLPEncoder.linear3 self
                  = Linear.mk (Some (Args.hidden_dim args)) (Args.hidden_dim args)
                              (weight_of ini 2) (bias_of ini 2)).
  { subst self. destruct mode;
      cbn [MLPEncoder.__init__ MLPEncoder.eval MLPEncoder.featureless
           MLPEncoder.node_embeddings MLPEncoder.dropout MLPEncoder.linear1
           MLPEncoder.linear2 MLPEncoder.linear3];
      rewrite Hx; repeat split. }
  destruct Hs as (Hf & He & Hd & H1 & H2 & H3).
  unfold MLPEncoder.forward. rewrite Hf, He, Hd, H1, H2, H3.
  cbn [MLPEncoder.getattr bind].
  unfold torch.index_rows. cbn [rows2 cols2].
  rewrite (all_in_range_true _ _ Hids). cbn [bind].
  unfold Linear.forward2 at 1, Linear.width. cbn [Linear.in_channels Linear.out_channels bind].
  match goal with
  | |- context [F.dropout2 ?t _ ?tr g] =>
      destruct (dropout2_returns t (Args.dropout args) tr g Hp)
        as (z1 & g1 & E1 & R1 & C1)
  end.
  rewrite E1. cbn [bind].
  unfold Linear.forward2 at 1, Linear.width. cbn [Linear.in_channels Linear.out_channels].
  rewrite C1. cbn [torch.map2d cols2]. rewrite Nat.eqb_refl. cbn [bind].
  match goal with
  | |- context [F.dropout2 ?t _ ?tr g1] =>
      destruct (dropout2_returns t (Args.dropout args) tr g1 Hp)
        as (z2 & g2 & E2 & R2 & C2)
  end.
  rewrite E2. cbn [bind].
  unfold Linear.forward2, Linear.width. cbn [Linear.in_channels Linear.out_channels].
  rewrite C2. cbn [torch.map2d cols2]. rewrite Nat.eqb_refl. cbn [bind].
  eexists. eexists. split; [reflexivity |].
  cbn [torch.map2d rows2 cols2 at2].
  cbn [torch.map2d rows2 cols2] in R1, R2.
  split; [congruence |]. split; [reflexivity |].
  intros i j. apply relu_nonneg.
Qed.

(** X15: an encoder built from data without node features, with a dropout
    rate in [[0, 1]], returns on every batch whose node identifiers are rows
    of its embedding table: one row per identifier, [hidden_dim] columns, and
    no negative entry. *)
Theorem MLPEncoder_featureless_forward
        (args : Args.t) (data batch : Data.t) (ini : initializer) (mode : bool) (g : rng) :
  Data.x data = None ->
  0 <= Args.dropout args <= 1 ->
  (forall e, (e < llen (Data.node_ids batch))%nat ->
     (- Z.of_nat (Data.num_nodes data) <= lat1 (Data.node_ids batch) e
      < Z.of_nat (Data.num_nodes data))%Z) ->
  let self := if mode then MLPEncoder.__init__ args data ini
              else MLPEncoder.eval (MLPEncoder.__init__ args data ini) in
  exists out g',
    MLPEncoder.forward self batch g = Ok (out, g')
    /\ rows2 out = llen (Data.node_ids batch)
    /\ cols2 out = Args.hidden_dim args
    /\ forall i j, 0 <= at2 out i j.
Proof. exact (MLPEncoder_featureless_spec args data batch ini mode g). Qed.

Lemma MLPEncoder_featureless_forward_witness :
  exists out g',
    MLPEncoder.forward
        (MLPEncoder.__init__ (Args.mk "MLPEncoder" 2 (1 / 2) 3)
           (Data.mk None 3 (long1_of [0; 1; 2]%Z) (long2_of 1 [[0]; [1]]%Z) None)
           (constant_init 1 0))
        (Data.mk None 3 (long1_of [2; 0]%Z) (long2_of 1 [[0]; [1]]%Z) None)
        (fun _ => 0) = Ok (out, g')
    /\ rows2 out = 2%nat /\ cols2 out = 2%nat.
Proof.
  destruct (MLPEncoder_featureless_forward
              (Args.mk "MLPEncoder" 2 (1 / 2) 3)
              (Data.mk None 3 (long1_of [0; 1; 2]%Z) (long2_of 1 [[0]; [1]]%Z) None)
              (Data.mk None 3 (long1_of [2; 0]%Z) (long2_of 1 [[0]; [1]]%Z) None)
              (constant_init 1 0) true (fun _ => 0))
    as (out & g' & E & Hr & Hc & _).
  - reflexivity.
  - cbn. lra.
  - intros e He. cbn in He. destruct e as [| [| e]]; [| | lia]; cbn; lia.
  - exists out, g'. repeat split; assumption.
Defined.

(** X16: once the layers of the encoder have their input widths (the
    encoder has been called before, or its parameters were loaded), a forward
    pass in evaluation mode leaves the random generator untouched, and its
    outcome does not depend on the state of the generator. *)
Theorem MLPEncoder_eval_deterministic
        (self : MLPEncoder.t) (batch : Data.t) (g1 g2 : rng) :
  materialized (MLPEncoder.linear1 self) ->
  materialized (MLPEncoder.linear2 self) ->
  materialized (MLPEncoder.linear3 self) ->
  0 <= MLPEncoder.dropout self <= 1 ->
  match MLPEncoder.forward (MLPEncoder.eval self) batch g1,
        MLPEncoder.forward (MLPEncoder.eval self) batch g2 with
  | Ok (o1, h1), Ok (o2, h2) => o1 = o2 /\ h1 = g1 /\ h2 = g2
  | Raise e1, Raise e2 => e1 = e2
  | _, _ => False
  end.
Proof.
  intros _ _ _ Hp.
  rewrite !(MLPEncoder_eval_without_dropout self batch _ Hp).
  destruct (MLPEncoder_without_dropout (MLPEncoder.eval self) batch) as [o | e];
    cbn [bind]; [repeat split | reflexivity].
Qed.

Lemma MLPEncoder_eval_deterministic_witness :
  match MLPEncoder.forward (MLPEncoder.eval called_encoder)
          (Data.mk None 3 (long1_of [2; 0]%Z) (long2_of 1 [[0]; [1]]%Z) None)
          (fun _ => 0),
        MLPEncoder.forward (MLPEncoder.eval called_encoder)
          (Data.mk None 3 (long1_of [2; 0]%Z) (long2_of 1 [[0]; [1]]%Z) None)
          (fun _ => 1) with
  | Ok (o1, h1), Ok (o2, h2) => o1 = o2 /\ h1 = (fun _ => 0) /\ h2 = (fun _ => 1)
  | Raise e1, Raise e2 => e1 = e2
  | _, _ => False
  end.
Proof.
  apply (MLPEncoder_eval_deterministic called_encoder
           (Data.mk None 3 (long1_of [2; 0]%Z) (long2_of 1 [[0]; [1]]%Z) None)
           (fun _ => 0) (fun _ => 1)).
  - discriminate.
  - discriminate.
  - discriminate.
  - cbn. lra.
Defined.



(** ** The factory: what it raises and what it returns *)

Lemma getattr_unbound (d : list (string * member)) (name : string) :
  ~ In name (map fst d) -> getattr d name = None.
Proof.
  induction d as [| [k v] d IH]; intros H; [reflexivity |].
  cbn [getattr]. destruct (String.eqb_spec k name) as [-> | _].
  - exfalso. apply H. now left.
  - apply IH. intros Hin. apply H. now right.
Qed.

Lemma getattr_LocalClass (name : string) (c : model_class) :
  getattr module_dict name = Some (LocalClass c) -> name = class_name c.
Proof.
  unfold module_dict. cbn [getattr class_name].
  repeat match goal with
         | |- context [String.eqb ?k name] =>
             destruct (String.eqb_spec k name) as [<- | _];
             [intros H; (discriminate H || (injection H as <-; reflexivity)) |]
         end.
  discriminate.
Qed.

Lemma getattr_not_TypeAttribute (name : string) :
  getattr module_dict name <> Some TypeAttribute.
Proof.
  unfold module_dict. cbn [getattr class_name].
  repeat match goal with
         | |- context [String.eqb ?k name] =>
             destruct (String.eqb k name); [discriminate |]
         end.
  discriminate.
Qed.

Lemma get_model_in_returns
      (frames : nat) (lib : library) (ini : initializer) (args : Args.t) (data : Data.t)
      (o : instance) :
  get_model_in frames lib ini args data = Ok o ->
  (Args.model args = "MLPEncoder"
   /\ o = I_MLPEncoder (MLPEncoder.__init__ args data ini))
  \/ (exists obj,
        o = I_Foreign obj
        /\ call lib (Args.model args) [PyArgs args; PyData data] = Ok obj
        /\ (getattr module_dict (Args.model args) = Some ImportedClass
            \/ (getattr module_dict (Args.model args) = None
                /\ inherited lib (Args.model args) = true))).
Proof.
  induction frames as [| frames IH]; [discriminate |].
  cbn [get_model_in]. unfold module_getattr.
  destruct (getattr module_dict (Args.model args)) as [m |] eqn:E.
  - destruct m as [| | | | c |]; try discriminate.
    + destruct (call lib (Args.model args) [PyArgs args; PyData data]) as [obj | e] eqn:C;
        cbn [bind]; [| discriminate].
      intros [= <-]. right. exists obj. repeat split. now left.
    + exact IH.
    + apply getattr_LocalClass in E.
      destruct c; cbn [construct]; try discriminate.
      intros [= <-]. left. split; [exact E | reflexivity].
    + now apply getattr_not_TypeAttribute in E.
  - destruct (inherited lib (Args.model args)) eqn:I; [| discriminate].
    destruct (call lib (Args.model args) [PyArgs args; PyData data]) as [obj | e] eqn:C;
      cbn [bind]; [| discriminate].
    intros [= <-]. right. exists obj. repeat split. right. now split.
Qed.

(** X18: a model name that the module [model] does not bind, and that the
    type of module objects does not provide either, raises
    [NotImplementedError]; the message starts with the name and ends with the
    sorted list of the six classes the module defines. *)
Theorem get_model_unknown_name
        (lib : library) (ini : initializer) (args : Args.t) (data : Data.t) :
  ~ In (Args.model args) (map fst module_dict) ->
  inherited lib (Args.model args) = false ->
  get_model lib ini args data =
    Raise (NotImplementedError
             (Args.model args ++ " is not implemented. Choose a model in the list: "
                ++ advertised_models)).
Proof.
  intros H I. apply get_model_unbound_name. unfold module_getattr.
  now rewrite (getattr_unbound _ _ H), I.
Qed.

Lemma get_model_unknown_name_witness :
  get_model dunder_library (constant_init 1 0)
      (Args.mk "GCNEncoder" 2 (1 / 2) 3)
      (Data.mk None 3 (long1_of [0; 1; 2]%Z) (long2_of 1 [[0]; [1]]%Z) None)
  = Raise (NotImplementedError
             "GCNEncoder is not implemented. Choose a model in the list: ['DistMultDecoder', 'HetDistMultDecoder', 'InnerProductDecoder', 'LinearClassifier', 'MLPEncoder', 'RGCNEncoder']").
Proof.
  apply (get_model_unknown_name dunder_library (constant_init 1 0)
           (Args.mk "GCNEncoder" 2 (1 / 2) 3)
           (Data.mk None 3 (long1_of [0; 1; 2]%Z) (long2_of 1 [[0]; [1]]%Z) None)).
  - cbn. intros H.
    repeat (destruct H as [H | H]; [discriminate H |]). exact H.
  - reflexivity.
Defined.

(** X19: whatever [get_model] returns is an [MLPEncoder] built from the
    given configuration and data, asked for by that name, or an object that
    is no instance of a class of the module: what a class imported from a
    library, or an attribute of the module type, returned when called with
    [(args, data)].  It never returns an instance of another class of the
    module. *)
Theorem get_model_returns_only
        (lib : library) (ini : initializer) (args : Args.t) (data : Data.t) (o : instance) :
  get_model lib ini args data = Ok o ->
  ((Args.model args = "MLPEncoder"
    /\ o = I_MLPEncoder (MLPEncoder.__init__ args data ini))
   \/ (exists obj,
         o = I_Foreign obj
         /\ call lib (Args.model args) [PyArgs args; PyData data] = Ok obj
         /\ (getattr module_dict (Args.model args) = Some ImportedClass
             \/ (getattr module_dict (Args.model args) = None
                 /\ inherited lib (Args.model args) = true))))
  /\ forall c : model_class, instance_of c o = true -> c = cls_MLPEncoder.
Proof.
  intros H.
  pose proof (get_model_in_returns recursion_limit lib ini args data o H) as R.
  split; [exact R |].
  intros c Hc.
  destruct R as [[_ ->] | (obj & -> & _)]; destruct c; (reflexivity || discriminate Hc).
Qed.

Lemma get_model_returns_only_witness :
  ((Args.model (Args.mk "MLPEncoder" 2 (1 / 2) 3) = "MLPEncoder"
    /\ I_MLPEncoder
         (MLPEncoder.__init__ (Args.mk "MLPEncoder" 2 (1 / 2) 3)
            (Data.mk None 3 (long1_of [0; 1; 2]%Z) (long2_of 1 [[0]; [1]]%Z) None)
            (constant_init 1 0))
       = I_MLPEncoder
           (MLPEncoder.__init__ (Args.mk "MLPEncoder" 2 (1 / 2) 3)
              (Data.mk None 3 (long1_of [0; 1; 2]%Z) (long2_of 1 [[0]; [1]]%Z) None)
              (constant_init 1 0)))
   \/ (exists obj,
         I_MLPEncoder
           (MLPEncoder.__init__ (Args.mk "MLPEncoder" 2 (1 / 2) 3)
              (Data.mk None 3 (long1_of [0; 1; 2]%Z) (long2_of 1 [[0]; [1]]%Z) None)
              (constant_init 1 0))
         = I_Foreign obj
         /\ call dunder_library (Args.model (Args.mk "MLPEncoder" 2 (1 / 2) 3))
              [PyArgs (Args.mk "MLPEncoder" 2 (1 / 2) 3);
               PyData (Data.mk None 3 (long1_of [0; 1; 2]%Z)
                               (long2_of 1 [[0]; [1]]%Z) None)] = Ok obj
         /\ (getattr module_dict (Args.model (Args.mk "MLPEncoder" 2 (1 / 2) 3))
               = Some ImportedClass
             \/ (getattr module_dict (Args.model (Args.mk "MLPEncoder" 2 (1 / 2) 3)) = None
                 /\ inherited dunder_library
                      (Args.model (Args.mk "MLPEncoder" 2 (1 / 2) 3)) = true))))
  /\ forall c : model_class,
       instance_of c
         (I_MLPEncoder
            (MLPEncoder.__init__ (Args.mk "MLPEncoder" 2 (1 / 2) 3)
               (Data.mk None 3 (long1_of [0; 1; 2]%Z) (long2_of 1 [[0]; [1]]%Z) None)
               (constant_init 1 0))) = true ->
       c = cls_MLPEncoder.
Proof.
  apply (get_model_returns_only dunder_library (constant_init 1 0)
           (Args.mk "MLPEncoder" 2 (1 / 2) 3)
           (Data.mk None 3 (long1_of [0; 1; 2]%Z) (long2_of 1 [[0]; [1]]%Z) None)).
  reflexivity.
Defined.

(** ** Encoder into decoder *)

(** X20: the embeddings of a featureless encoder fit a heterogeneous decoder
    of [hidden_dim] channels: on a batch whose node identifiers are rows of
    the embedding table and whose edges name positions of the batch, encoding
    and then decoding returns one row of [num_relations + 1] scores per
    scored edge. *)
Theorem MLPEncoder_into_HetDistMult
        (args : Args.t) (data batch : Data.t) (ini ini' : initializer)
        (num_relations : nat) (g : rng) :
  Data.x data = None ->
  0 <= Args.dropout args <= 1 ->
  (forall e, (e < llen (Data.node_ids batch))%nat ->
     (- Z.of_nat (Data.num_nodes data) <= lat1 (Data.node_ids batch) e
      < Z.of_nat (Data.num_nodes data))%Z) ->
  edges_of (llen (Data.node_ids batch)) (Data.pos_edge_index batch) ->
  match Data.neg_edge_index batch with
  | Some neg => edges_of (llen (Data.node_ids batch)) neg
  | None => True
  end ->
  exists z g' out,
    MLPEncoder.forward (MLPEncoder.__init__ args data ini) batch g = Ok (z, g')
    /\ HetDistMultDecoder.forward
         (HetDistMultDecoder.__init__ num_relations (Args.hidden_dim args) ini') z batch
       = Ok out
    /\ rows2 out = scored_edges batch
    /\ cols2 out = (num_relations + 1)%nat.
Proof.
  intros Hx Hp Hids Hpos Hneg.
  destruct (MLPEncoder_featureless_spec args data batch ini true g Hx Hp Hids)
    as (z & g' & E & Rz & Cz & _).
  cbn zeta in E. exists z, g'.
  rewrite <- Rz in Hpos, Hneg. rewrite <- Cz.
  destruct (HetDistMult_forward_returns num_relations ini' z batch Hpos Hneg) as [out Ho].
  exists out. split; [exact E |]. split; [exact Ho |].
  unfold HetDistMultDecoder.forward in Ho.
  apply bind_Ok in Ho as (pos_out & Hs & Ho).
  apply scores_shape in Hs as [Rp Cp]. cbn in Cp.
  unfold scored_edges.
  destruct (Data.neg_edge_index batch) as [neg |].
  - apply bind_Ok in Ho as (neg_out & Hn & Ho).
    apply scores_shape in Hn as [Rn Cn].
    unfold torch.cat in Ho. destruct (_ =? _)%nat; [| discriminate].
    injection Ho as <-. cbn. split; congruence.
  - injection Ho as <-. split; [lia | congruence].
Qed.

Lemma MLPEncoder_into_HetDistMult_witness :
  exists z g' out,
    MLPEncoder.forward
        (MLPEncoder.__init__ (Args.mk "MLPEncoder" 2 (1 / 2) 3)
           (Data.mk None 3 (long1_of [0; 1; 2]%Z) (long2_of 1 [[0]; [1]]%Z) None)
           (constant_init 1 0))
        (Data.mk None 3 (long1_of [2; 0]%Z) (long2_of 1 [[0]; [1]]%Z) None)
        (fun _ => 0) = Ok (z, g')
    /\ HetDistMultDecoder.forward
         (HetDistMultDecoder.__init__ 4 2 (constant_init 1 0)) z
         (Data.mk None 3 (long1_of [2; 0]%Z) (long2_of 1 [[0]; [1]]%Z) None) = Ok out
    /\ rows2 out = 1%nat /\ cols2 out = 5%nat.
Proof.
  apply (MLPEncoder_into_HetDistMult
           (Args.mk "MLPEncoder" 2 (1 / 2) 3)
           (Data.mk None 3 (long1_of [0; 1; 2]%Z) (long2_of 1 [[0]; [1]]%Z) None)
           (Data.mk None 3 (long1_of [2; 0]%Z) (long2_of 1 [[0]; [1]]%Z) None)
           (constant_init 1 0) (constant_init 1 0) 4 (fun _ => 0)).
  - reflexivity.
  - cbn. lra.
  - intros e He. cbn in He. destruct e as [| [| e]]; [| | lia]; cbn; lia.
  - split; [cbn; lia |]. intros r e Hr He. cbn in He.
    destruct e as [| e]; [| lia]. destruct r as [| [| r]]; [| | lia]; cbn; lia.
  - exact I.
Defined.

(** ** Dropout at rate zero *)

Lemma Linear_apply_ext (self : Linear.t) (n : nat) (v w : nat -> R) (o : nat) :
  (forall k, v k = w k) -> Linear.apply self n v o = Linear.apply self n w o.
Proof.
  intros H. unfold Linear.apply. f_equal.
  apply sum_upto_ext. intros k _. now rewrite H.
Qed.

(** X21: at dropout rate zero the classifier's missing mode does not show:
    on draws from [[0, 1)], [LinearClassifier.forward] returns, in either
    mode, the tensor its layers compute without dropout. *)
Theorem LinearClassifier_rate_zero_no_dropout
      (args : Args.t) (ini : initializer) (mode : bool) (z : Tensor3) (g : rng) :
  Args.dropout args = 0 -> uniform_draws g ->
  let self := if mode then LinearClassifier.__init__ args ini
              else LinearClassifier.eval (LinearClassifier.__init__ args ini) in
  exists out g' ref,
    LinearClassifier.forward self z g = Ok (out, g')
    /\ LinearClassifier_without_dropout self z = Ok ref
    /\ same_tensor3 out ref.
Proof.
  intros H0 Hg self.
  assert (Hp : 0 <= 0 <= 1) by lra.
  assert (Hl : LinearClassifier.layers self
               = LinearClassifier.layers (LinearClassifier.__init__ args ini)
               /\ LinearClassifier.dropout self = 0)
    by (destruct mode; split; (reflexivity || exact H0)).
  destruct Hl as [Hl Hd].
  unfold LinearClassifier.forward, LinearClassifier_without_dropout. rewrite Hl, Hd.
  cbn [LinearClassifier.__init__ LinearClassifier.layers removelast
       LinearClassifier.hidden_layers plain_layers].
  unfold Linear.forward3 at 1 4, Linear.width. cbn [Linear.in_channels Linear.out_channels bind].
  rewrite dropout3_rate_zero. cbn [bind].
  unfold Linear.forward3 at 1 3, Linear.width.
  cbn [Linear.in_channels Linear.out_channels torch.map3d dim0 dim1 dim2].
  rewrite Nat.eqb_refl. cbn [bind].
  rewrite dropout3_rate_zero. cbn [bind py_last rev app plain_layers].
  unfold Linear.forward3, Linear.width.
  cbn [Linear.in_channels Linear.out_channels torch.map3d dim0 dim1 dim2].
  rewrite Nat.eqb_refl. cbn [bind].
  eexists. eexists. eexists. split; [reflexivity |]. split; [reflexivity |].
  unfold same_tensor3. repeat split.
Qed.

Lemma LinearClassifier_rate_zero_no_dropout_witness :
  exists out g' ref,
    LinearClassifier.forward
        (LinearClassifier.eval
           (LinearClassifier.__init__ (Args.mk "InnerProductDecoder" 2 0 3)
                                      (constant_init 1 0)))
        (tensor3_of 1 1 [[[1]]]) (fun _ => 0) = Ok (out, g')
    /\ LinearClassifier_without_dropout
         (LinearClassifier.eval
            (LinearClassifier.__init__ (Args.mk "InnerProductDecoder" 2 0 3)
                                       (constant_init 1 0)))
         (tensor3_of 1 1 [[[1]]]) = Ok ref
    /\ same_tensor3 out ref.
Proof.
  apply (LinearClassifier_rate_zero_no_dropout
           (Args.mk "InnerProductDecoder" 2 0 3) (constant_init 1 0) false
           (tensor3_of 1 1 [[[1]]]) (fun _ => 0)).
  - reflexivity.
  - intros m. lra.
Defined.

(** X22: with dropout rate zero and draws from [[0, 1)], the inner-product
    decoder predicts an undirected graph: the tensor it returns has the same
    entries for the node pair [(i, j)] and for [(j, i)], in every class
    channel. *)
Theorem InnerProductDecoder_rate_zero_symmetric
        (args : Args.t) (ini : initializer) (mode : bool) (z : Tensor2) (g : rng) :
  Args.dropout args = 0 -> uniform_draws g ->
  let self := if mode then InnerProductDecoder.__init__ args ini
              else InnerProductDecoder.eval (InnerProductDecoder.__init__ args ini) in
  exists out g',
    InnerProductDecoder.forward self z g = Ok (out, g')
    /\ forall i j k, at3 out i j k = at3 out j i k.
Proof.
  intros H0 Hg self.
  assert (Hp : 0 <= 0 <= 1) by lra.
  assert (Hs : InnerProductDecoder.dropout self = 0
               /\ InnerProductDecoder.num_classes self = Args.num_classes args
               /\ LinearClassifier.layers (InnerProductDecoder.classifier self)
                  = LinearClassifier.layers (LinearClassifier.__init__ args ini)
               /\ LinearClassifier.dropout (InnerProductDecoder.classifier self) = 0)
    by (subst self; destruct mode; repeat split; (reflexivity || exact H0)).
  destruct Hs as (Hd & Hn & Hl & Hc).
  unfold InnerProductDecoder.forward. rewrite Hd, Hn.
  rewrite dropout2_rate_zero. cbn [bind].
  unfold torch.mm. cbn [torch.t rows2 cols2]. rewrite Nat.eqb_refl. cbn [bind].
  unfold LinearClassifier.forward. rewrite Hl, Hc.
  cbn [LinearClassifier.__init__ LinearClassifier.layers removelast
       LinearClassifier.hidden_layers].
  unfold Linear.forward3 at 1, Linear.width. cbn [Linear.in_channels Linear.out_channels bind].
  rewrite dropout3_rate_zero. cbn [bind].
  unfold Linear.forward3 at 1, Linear.width.
  cbn [Linear.in_channels Linear.out_channels torch.map3d dim0 dim1 dim2].
  rewrite Nat.eqb_refl. cbn [bind].
  rewrite dropout3_rate_zero. cbn [bind py_last rev app].
  unfold Linear.forward3, Linear.width.
  cbn [Linear.in_channels Linear.out_channels torch.map3d dim0 dim1 dim2].
  rewrite Nat.eqb_refl. cbn [bind].
  eexists. eexists. split; [reflexivity |].
  intros i j k. cbn [torch.map3d at3]. f_equal.
  apply Linear_apply_ext. intros o.
  cbn [torch.map3d at3]. f_equal. apply Linear_apply_ext. intros o'.
  f_equal. apply Linear_apply_ext. intros c.
  cbn [torch.unsqueeze2_repeat torch.map2d at3 at2]. f_equal.
  apply sum_upto_ext. intros l _. cbn [torch.t at2]. ring.
Qed.

Lemma InnerProductDecoder_rate_zero_symmetric_witness :
  exists out g',
    InnerProductDecoder.forward
        (InnerProductDecoder.__init__ (Args.mk "InnerProductDecoder" 2 0 3)
                                      (constant_init 1 0))
        (tensor2_of 2 [[1; 2]; [3; 4]]) (fun _ => 0) = Ok (out, g')
    /\ at3 out 0 1 2 = at3 out 1 0 2.
Proof.
  destruct (InnerProductDecoder_rate_zero_symmetric
              (Args.mk "InnerProductDecoder" 2 0 3) (constant_init 1 0) true
              (tensor2_of 2 [[1; 2]; [3; 4]]) (fun _ => 0))
    as (out & g' & E & S).
  - reflexivity.
  - intros m. lra.
  - exists out, g'. split; [exact E | apply S].
Defined.

(** ** The constructor of the RGCN encoder *)

